(** * shiftmanager: the test-fixture layer of [shiftmanager/tests/conftest.py]

    A shallow embedding of the mock database cursor, the mock storage bucket,
    the statement mogrifier and the two patched metadata queries, followed by
    the properties the specification states about them.

    Python objects are modelled by explicit state passing: a method that
    mutates [self] takes the object's state and returns the new one, next to
    the value the method returns.  A raised exception is a value of
    [Py.result]. *)

From Stdlib Require Import ZArith String Ascii List DecimalString.
From stdpp Require Import base option list gmap strings.

Local Open Scope Z_scope.

(** ** Fragments of the Python runtime the fixtures rely on *)

Module Py.

(** The exception classes that the modelled code can raise. *)
Inductive exn : Type :=
| TypeError
| ValueError
| KeyError
| IndexError
| ProgrammingError      (* psycopg2: a value that cannot be adapted *)
| UnicodeDecodeError.

(** The outcome of evaluating an expression: a value, or a raised
    exception. *)
Inductive result (A : Type) : Type :=
| Ok (a : A)
| Raise (e : exn).

Arguments Ok {A} a.
Arguments Raise {A} e.

Definition bind {A B} (r : result A) (k : A -> result B) : result B :=
  match r with
  | Ok a => k a
  | Raise e => Raise e
  end.

(** [len(l)] *)
Definition len {A} (l : list A) : Z := Z.of_nat (length l).

(** [l[i]] on a list: a negative index counts from the end, an index out
    of range raises [IndexError]. *)
Definition getitem {A} (l : list A) (i : Z) : result A :=
  let j := if i <? 0 then i + len l else i in
  if (j <? 0) || (len l <=? j) then Raise IndexError
  else match l !! Z.to_nat j with
       | Some x => Ok x
       | None => Raise IndexError
       end.

End Py.

#[export] Instance result_ret : MRet Py.result := @Py.Ok.
#[export] Instance result_bind : MBind Py.result :=
  fun A B k r => Py.bind r k.

(** ** [MockCursor] (conftest.py, lines 21-48) *)

Module MockCursor.

Section Cursor.

(** The statements handed to [execute] and the rows of [return_rows] are
    arbitrary Python objects. *)
Context {Stmt Row : Type}.

Record cursor : Type := mk {
  statements : list Stmt;
  return_rows : list Row;
  cursor_position : Z
}.

(** [__init__]: the three attributes of a new cursor. *)
Definition init : cursor :=
  {| statements := []; return_rows := []; cursor_position := 0 |}.

(** The assignment [cursor.return_rows = rows], by which a test
    materializes the rows a query is to return. *)
Definition set_return_rows (rows : list Row) (self : cursor) : cursor :=
  {| statements := statements self;
     return_rows := rows;
     cursor_position := cursor_position self |}.

(** A new cursor whose [return_rows] have been assigned. *)
Definition with_rows (rows : list Row) : cursor :=
  set_return_rows rows init.

(** [execute]: [self.statements.append(statement)]; returns [None]. *)
Definition execute (statement : Stmt) (self : cursor) : cursor :=
  {| statements := statements self ++ [statement];
     return_rows := return_rows self;
     cursor_position := cursor_position self |}.

(** [fetchone]: the value returned ([None] is Python's [None]) or the
    exception raised by the subscript, and the cursor afterwards. *)
Definition fetchone (self : cursor) : Py.result (option Row) * cursor :=
  if cursor_position self >? Py.len (return_rows self) - 1 then
    (Py.Ok None, self)
  else
    match Py.getitem (return_rows self) (cursor_position self) with
    | Py.Raise e => (Py.Raise e, self)
    | Py.Ok next_row =>
        (Py.Ok (Some next_row),
         {| statements := statements self;
            return_rows := return_rows self;
            cursor_position := cursor_position self + 1 |})
    end.

(** [__enter__] returns the cursor itself; [__exit__] returns [None]. *)
Definition enter (self : cursor) : cursor * cursor := (self, self).
Definition exit (self : cursor) : cursor := self.

(** [n] successive calls of [fetchone]: what each returned, and the
    cursor after the last. *)
Fixpoint fetchone_n (n : nat) (self : cursor)
  : list (Py.result (option Row)) * cursor :=
  match n with
  | O => ([], self)
  | S n' =>
      let '(r, self') := fetchone self in
      let '(rs, self'') := fetchone_n n' self' in
      (r :: rs, self'')
  end.

(** A call made on the cursor through its two data methods. *)
Inductive op : Type :=
| Execute (statement : Stmt)
| FetchOne.

Definition step (self : cursor) (o : op) : cursor :=
  match o with
  | Execute statement => execute statement self
  | FetchOne => snd (fetchone self)
  end.

(** The cursor after a sequence of calls (an exception raised by one call
    leaves the cursor as it was, and the next call proceeds). *)
Definition run (ops : list op) (self : cursor) : cursor :=
  fold_left step ops self.

(** The generator object made by [__iter__]: not yet started, inside the
    [for] loop over the list it read from [self.return_rows], or
    finished. *)
Inductive generator : Type :=
| GenCreated
| GenRunning (rows : list Row) (idx : nat)
| GenDone.

(** [__iter__]: calling a generator function runs none of its body. *)
Definition iter (self : cursor) : generator * cursor := (GenCreated, self).

(** One step of the list iterator behind [for row in rows]. *)
Definition gen_resume (rows : list Row) (idx : nat)
  : option Row * generator :=
  match rows !! idx with
  | Some row => (Some row, GenRunning rows (S idx))
  | None => (None, GenDone)
  end.

(** [next(g)] on a generator of the cursor [self]: the row yielded, or
    [None] for [StopIteration]; the generator and the cursor afterwards. *)
Definition gen_next (g : generator) (self : cursor)
  : option Row * generator * cursor :=
  match g with
  | GenCreated => (gen_resume (return_rows self) 0, self)
  | GenRunning rows idx => (gen_resume rows idx, self)
  | GenDone => (None, GenDone, self)
  end.

(** Exhausting a generator, as [list(g)] or a [for] loop does: resume it
    until it stops.  [fuel] bounds the number of resumptions. *)
Fixpoint gen_drain (fuel : nat) (g : generator) (self : cursor)
  : option (list Row) * generator * cursor :=
  match fuel with
  | O => (None, g, self)
  | S fuel' =>
      match gen_next g self with
      | (None, g', self') => (Some [], g', self')
      | (Some row, g', self') =>
          match gen_drain fuel' g' self' with
          | (Some rows, g'', self'') => (Some (row :: rows), g'', self'')
          | (None, g'', self'') => (None, g'', self'')
          end
      end
  end.

(** [list(cursor)]: a fresh generator, exhausted. *)
Definition iterate (self : cursor) : option (list Row) * cursor :=
  let '(g, self1) := iter self in
  let '(rows, _, self2) :=
    gen_drain (S (length (return_rows self1))) g self1 in
  (rows, self2).

(** Calls on a cursor interleaved with resumptions of one generator
    obtained from it. *)
Inductive mixed_op : Type :=
| OnCursor (o : op)
| Next.

Inductive event : Type :=
| Executed
| Fetched (r : Py.result (option Row))
| Yielded (r : option Row).

Definition mixed_step (st : generator * cursor) (o : mixed_op)
  : event * (generator * cursor) :=
  let '(g, self) := st in
  match o with
  | OnCursor (Execute statement) => (Executed, (g, execute statement self))
  | OnCursor FetchOne =>
      let '(r, self') := fetchone self in (Fetched r, (g, self'))
  | Next =>
      let '(r, g', self') := gen_next g self in (Yielded r, (g', self'))
  end.

Fixpoint mixed_run (ops : list mixed_op) (st : generator * cursor)
  : list event * (generator * cursor) :=
  match ops with
  | [] => ([], st)
  | o :: ops' =>
      let '(e, st') := mixed_step st o in
      let '(es, st'') := mixed_run ops' st' in
      (e :: es, st'')
  end.

(** What the generator yielded, and what [fetchone] returned, in a run. *)
Definition yields (es : list event) : list (option Row) :=
  omap (fun e => match e with Yielded r => Some r | _ => None end) es.

Definition fetches (es : list event) : list (Py.result (option Row)) :=
  omap (fun e => match e with Fetched r => Some r | _ => None end) es.

(** The calls on the cursor alone, and the number of resumptions. *)
Definition cursor_ops (ops : list mixed_op) : list op :=
  omap (fun o => match o with OnCursor o' => Some o' | Next => None end) ops.

Fixpoint next_count (ops : list mixed_op) : nat :=
  match ops with
  | [] => O
  | Next :: ops' => S (next_count ops')
  | OnCursor _ :: ops' => next_count ops'
  end.

(** The cursor stands at index [p] of its rows, or past their end as
    [p] is. *)
Definition at_index (self : cursor) (p : nat) : Prop :=
  cursor_position self = Z.of_nat p \/
  (Py.len (return_rows self) <= cursor_position self /\
   (length (return_rows self) <= p)%nat).

(** A generator of the cursor that has yielded the first [k] rows of [rows],
    or has stopped as [k] is past their end. *)
Definition gen_at (rows : list Row) (g : generator) (k : nat) : Prop :=
  (g = GenCreated /\ k = O) \/
  g = GenRunning rows k \/
  (g = GenDone /\ (length rows <= k)%nat).

End Cursor.

Arguments cursor : clear implicits.
Arguments op : clear implicits.
Arguments generator : clear implicits.
Arguments mixed_op : clear implicits.
Arguments event : clear implicits.

End MockCursor.

(** ** [MockBucket] (conftest.py, lines 64-79) *)

Module MockBucket.

(** A [MagicMock] made by [new_key], told from the others by a serial
    number. *)
Definition key_mock : Type := nat.

Section Bucket.

(** The argument of [delete_keys] is a list of keys, stored as it is
    given. *)
Context {Key : Type}.

(** [s3keys] is an attribute of the class, a dictionary shared by the
    instances, until [reset] gives the instance a dictionary of its own;
    [recently_deleted_keys] does not exist before [delete_keys] or [reset]
    has set it. *)
Record bucket : Type := mk {
  class_s3keys : gmap string key_mock;
  own_s3keys : option (gmap string key_mock);
  name : string;
  recently_deleted_keys : option (list Key);
  mocks_made : nat
}.

(** [MockBucket()] in a new [mock_s3] fixture. *)
Definition init : bucket :=
  {| class_s3keys := ∅;
     own_s3keys := None;
     name := "com.simple.mock";
     recently_deleted_keys := None;
     mocks_made := 0 |}.

(** [self.s3keys]: the instance's attribute if it has one, else the
    class's. *)
Definition s3keys (self : bucket) : gmap string key_mock :=
  match own_s3keys self with
  | Some keys => keys
  | None => class_s3keys self
  end.

(** [new_key]: a new mock, stored under [keypath] in the dictionary
    [self.s3keys] refers to, and returned. *)
Definition new_key (keypath : string) (self : bucket) : key_mock * bucket :=
  let key_mock := mocks_made self in
  (key_mock,
   match own_s3keys self with
   | Some keys =>
       {| class_s3keys := class_s3keys self;
          own_s3keys := Some (<[keypath := key_mock]> keys);
          name := name self;
          recently_deleted_keys := recently_deleted_keys self;
          mocks_made := S (mocks_made self) |}
   | None =>
       {| class_s3keys := <[keypath := key_mock]> (class_s3keys self);
          own_s3keys := None;
          name := name self;
          recently_deleted_keys := recently_deleted_keys self;
          mocks_made := S (mocks_made self) |}
   end).

(** [delete_keys]: [self.recently_deleted_keys = keys]. *)
Definition delete_keys (keys : list Key) (self : bucket) : bucket :=
  {| class_s3keys := class_s3keys self;
     own_s3keys := own_s3keys self;
     name := name self;
     recently_deleted_keys := Some keys;
     mocks_made := mocks_made self |}.

(** [reset]: an empty dictionary and an empty list, both attributes of the
    instance. *)
Definition reset (self : bucket) : bucket :=
  {| class_s3keys := class_s3keys self;
     own_s3keys := Some ∅;
     name := name self;
     recently_deleted_keys := Some [];
     mocks_made := mocks_made self |}.

(** The keys created by a sequence of [new_key] calls. *)
Definition new_keys (keypaths : list string) (self : bucket) : bucket :=
  fold_left (fun b keypath => snd (new_key keypath b)) keypaths self.

End Bucket.

Arguments bucket : clear implicits.

End MockBucket.

(** ** The patched metadata queries (conftest.py, lines 109-119) *)

Module Metadata.

(** [id_cols], which replaces [Redshift._get_identity_columns]: the set
    [{'id_col'}] for one table name; for any other the function falls off
    its end and returns [None]. *)
Definition id_cols {Self : Type} (self : Self) (table_name : string)
  : option (gset string) :=
  if decide (table_name = "my_identity_table") then Some {["id_col"]}
  else None.

(** [columns_and_types], which replaces [Redshift._get_columns_and_types];
    [col_str] defaults to ['*']. *)
Definition columns_and_types {Self Table : Type}
    (self : Self) (table : Table) (col_str : option string)
  : list (string * string) :=
  [("foo", "boolean");
   ("bar", "numeric(23,2)");
   ("baz", "character varying(256)")].

End Metadata.

(** ** The [%] operator on a [str] template

    [mogrify] renders with [batch % parameters].  What follows is the
    interpreter's formatting loop (CPython 3.7 and later) for the right-hand
    operands [mogrify] can produce, read one character at a time: outside a
    conversion specifier, or at one of the places inside it (mapping key,
    flags, width, precision, length modifier, conversion character).
    Errors are raised where the interpreter raises them, so that of two
    errors in a template the earlier one is the one reported. *)

Module PyFormat.

(** The objects that take part: the right-hand operand is a dictionary from
    [str] to [str] or a list of [bytes]; a mapping key selects a [str]. *)
Inductive object : Type :=
| ObjDict (items : list (string * string))
| ObjList (items : list string)
| ObjStr (s : string).

(** The conversions that produce text: [%s], [%r] and [%a]. *)
Inductive conversion : Type := ConvS | ConvR | ConvA.

(** A specifier's left-adjust flag, width and precision; [-1] is the
    interpreter's mark for a width or precision that is not given. *)
Record spec : Type := mk_spec {
  ljust : bool;
  width : Z;
  prec : Z
}.

Definition spec0 : spec := {| ljust := false; width := -1; prec := -1 |}.

Inductive mode : Type :=
| MText                                 (* outside a specifier *)
| MStart                                (* after the [%] *)
| MKey (nested : nat) (key : string)    (* inside [%(...)] *)
| MFlags (sp : spec)
| MWidth (sp : spec)
| MPrecStart (sp : spec)                (* after the [.] *)
| MPrec (sp : spec)
| MConv (sp : spec).                    (* after [h], [l] or [L] *)

(** The text written so far, and the argument the next conversion will
    take: the operand itself at first (it is not a tuple), the value of a
    mapping key after one, nothing once taken. *)
Record state : Type := mk_state {
  out : string;
  pending : option object
}.

Definition PY_SSIZE_T_MAX : Z := 2 ^ 63 - 1.
Definition INT_MAX : Z := 2 ^ 31 - 1.

(** The character [c] occurs in [s]. *)
Fixpoint contains (c : ascii) (s : string) : bool :=
  match s with
  | EmptyString => false
  | String c' s' => Ascii.eqb c c' || contains c s'
  end.

Definition is_digit (c : ascii) : bool :=
  (48 <=? N_of_ascii c)%N && (N_of_ascii c <=? 57)%N.

Definition digit_value (c : ascii) : Z := Z.of_N (N_of_ascii c) - 48.

(** The operand passes the interpreter's mapping check: a dictionary does,
    and so does a list (it has a subscript); a [str] is excluded. *)
Definition is_mapping (operand : object) : bool :=
  match operand with
  | ObjStr _ => false
  | _ => true
  end.

Fixpoint dict_lookup (key : string) (items : list (string * string))
  : option string :=
  match items with
  | [] => None
  | (k, v) :: items' =>
      if String.eqb k key then Some v else dict_lookup key items'
  end.

(** [operand[key]] for a [str] key. *)
Definition subscript (operand : object) (key : string) : Py.result object :=
  match operand with
  | ObjDict items =>
      match dict_lookup key items with
      | Some v => Py.Ok (ObjStr v)
      | None => Py.Raise Py.KeyError
      end
  | ObjList _ => Py.Raise Py.TypeError
  | ObjStr _ => Py.Raise Py.TypeError
  end.

Definition spaces (n : nat) : string :=
  string_of_list_ascii (replicate n " "%char).

(** The converted text, cut to the precision when the conversion allows
    it, then padded with blanks to the width. *)
Definition emit (sp : spec) (truncate : bool) (text : string) : string :=
  let text :=
    if truncate && (0 <=? prec sp) && (prec sp <? Z.of_nat (String.length text))
    then substring 0 (Z.to_nat (prec sp)) text
    else text in
  let n := Z.of_nat (String.length text) in
  if n <? width sp then
    if ljust sp then text +:+ spaces (Z.to_nat (width sp - n))
    else spaces (Z.to_nat (width sp - n)) +:+ text
  else text.

Definition write (text : string) (st : state) : state :=
  {| out := out st +:+ text; pending := pending st |}.

(** The next argument; there is at most one. *)
Definition take_arg (st : state) : Py.result (object * state) :=
  match pending st with
  | Some v => Py.Ok (v, {| out := out st; pending := None |})
  | None => Py.Raise Py.TypeError
  end.

Section Format.

(** [str(v)], [repr(v)] and [ascii(v)]: the text of an object, as the
    interpreter's built-in functions give it. *)
Variable py_text : conversion -> object -> string.

Definition text_of (cv : conversion) (v : object) : string :=
  match cv, v with
  | ConvS, ObjStr s => s
  | _, _ => py_text cv v
  end.

(** The conversion character. *)
Definition on_conv (sp : spec) (c : ascii) (st : state)
  : Py.result (mode * state) :=
  '(v, st) ← take_arg st;
  match c with
  | "s" => Py.Ok (MText, write (emit sp true (text_of ConvS v)) st)
  | "r" => Py.Ok (MText, write (emit sp true (text_of ConvR v)) st)
  | "a" => Py.Ok (MText, write (emit sp true (text_of ConvA v)) st)
  | "d" | "i" | "u" | "o" | "x" | "X"
  | "e" | "E" | "f" | "F" | "g" | "G" =>
      (* a number is required: the argument is a dict, a list or a str *)
      Py.Raise Py.TypeError
  | "c" =>
      match v with
      | ObjStr s =>
          if (String.length s =? 1)%nat
          then Py.Ok (MText, write (emit sp false s) st)
          else Py.Raise Py.TypeError
      | _ => Py.Raise Py.TypeError
      end
  | _ => Py.Raise Py.ValueError
  end%char.

(** A length modifier, or else the conversion character. *)
Definition on_len (sp : spec) (c : ascii) (st : state)
  : Py.result (mode * state) :=
  match c with
  | "h" | "l" | "L" => Py.Ok (MConv sp, st)
  | _ => on_conv sp c st
  end%char.

(** The [.] of a precision, or else what follows it. *)
Definition on_prec (sp : spec) (c : ascii) (st : state)
  : Py.result (mode * state) :=
  match c with
  | "." =>
      Py.Ok (MPrecStart
               {| ljust := ljust sp; width := width sp; prec := 0 |}, st)
  | _ => on_len sp c st
  end%char.

(** A width, or else what follows it.  A [*] takes the next argument, which
    has to be an [int]: here it never is. *)
Definition on_width (sp : spec) (c : ascii) (st : state)
  : Py.result (mode * state) :=
  if Ascii.eqb c "*" then
    '(_, _) ← take_arg st; Py.Raise Py.TypeError
  else if is_digit c then
    Py.Ok (MWidth
             {| ljust := ljust sp;
                width := digit_value c;
                prec := prec sp |}, st)
  else on_prec sp c st.

(** A flag, or else what follows the flags. *)
Definition on_flags (sp : spec) (c : ascii) (st : state)
  : Py.result (mode * state) :=
  match c with
  | "-" =>
      Py.Ok (MFlags {| ljust := true; width := width sp; prec := prec sp |},
             st)
  | "+" | " " | "#" | "0" => Py.Ok (MFlags sp, st)
  | _ => on_width sp c st
  end%char.

(** One character of the template. *)
Definition step (operand : object) (m : mode) (c : ascii) (st : state)
  : Py.result (mode * state) :=
  match m with
  | MText =>
      if Ascii.eqb c "%" then Py.Ok (MStart, st)
      else Py.Ok (MText, write (String c EmptyString) st)
  | MStart =>
      if Ascii.eqb c "%" then Py.Ok (MText, write "%" st)
      else if Ascii.eqb c "(" then
        if is_mapping operand then Py.Ok (MKey 0 "", st)
        else Py.Raise Py.TypeError
      else on_flags spec0 c st
  | MKey nested key =>
      if Ascii.eqb c ")" then
        match nested with
        | O =>
            v ← subscript operand key;
            Py.Ok (MFlags spec0, {| out := out st; pending := Some v |})
        | S nested' =>
            Py.Ok (MKey nested' (key +:+ String c EmptyString), st)
        end
      else if Ascii.eqb c "(" then
        Py.Ok (MKey (S nested) (key +:+ String c EmptyString), st)
      else Py.Ok (MKey nested (key +:+ String c EmptyString), st)
  | MFlags sp => on_flags sp c st
  | MWidth sp =>
      if is_digit c then
        if (PY_SSIZE_T_MAX - digit_value c) / 10 <? width sp
        then Py.Raise Py.ValueError
        else Py.Ok (MWidth
                      {| ljust := ljust sp;
                         width := width sp * 10 + digit_value c;
                         prec := prec sp |}, st)
      else on_prec sp c st
  | MPrecStart sp =>
      if Ascii.eqb c "*" then
        '(_, _) ← take_arg st; Py.Raise Py.TypeError
      else if is_digit c then
        Py.Ok (MPrec
                 {| ljust := ljust sp;
                    width := width sp;
                    prec := digit_value c |}, st)
      else on_len sp c st
  | MPrec sp =>
      if is_digit c then
        if (INT_MAX - digit_value c) / 10 <? prec sp
        then Py.Raise Py.ValueError
        else Py.Ok (MPrec
                      {| ljust := ljust sp;
                         width := width sp;
                         prec := prec sp * 10 + digit_value c |}, st)
      else on_len sp c st
  | MConv sp => on_conv sp c st
  end.

(** The end of the template: inside a specifier it is incomplete; an
    argument left over is an error unless the operand is a mapping. *)
Definition finish (operand : object) (m : mode) (st : state)
  : Py.result string :=
  match m with
  | MText =>
      match pending st with
      | Some _ =>
          if is_mapping operand then Py.Ok (out st)
          else Py.Raise Py.TypeError
      | None => Py.Ok (out st)
      end
  | _ => Py.Raise Py.ValueError
  end.

Fixpoint run (operand : object) (m : mode) (st : state) (template : string)
  : Py.result string :=
  match template with
  | EmptyString => finish operand m st
  | String c template' =>
      '(m', st') ← step operand m c st;
      run operand m' st' template'
  end.

(** [template % operand] *)
Definition py_mod (template : string) (operand : object) : Py.result string :=
  run operand MText {| out := ""; pending := Some operand |} template.

End Format.

End PyFormat.

(** ** [mogrify] (conftest.py, lines 95-106) *)

Module Mogrify.

(** The [parameters] argument: [None] (the default), a
    [collections.Mapping] with [str] keys, given by its items, or a
    [collections.Sequence], given by its elements. *)
Inductive parameters (V : Type) : Type :=
| ParamNone
| ParamMapping (items : list (string * V))
| ParamSequence (vals : list V).

Arguments ParamNone {V}.
Arguments ParamMapping {V} items.
Arguments ParamSequence {V} vals.

(** [d[key] = val] on a dictionary kept in insertion order. *)
Fixpoint dict_set (key val : string) (d : list (string * string))
  : list (string * string) :=
  match d with
  | [] => [(key, val)]
  | (k, v) :: d' =>
      if String.eqb k key then (k, val) :: d'
      else (k, v) :: dict_set key val d'
  end.

(** [dict(pairs)] *)
Definition dict (pairs : list (string * string)) : list (string * string) :=
  fold_left (fun d '(key, val) => dict_set key val d) pairs [].

Section Mogrify.

(** The values of the parameters, and what the database driver and the
    interpreter do with them: [psycopg2.extensions.adapt(val).getquoted()],
    [bytes.decode('utf-8')], and the text of an object. *)
Context {V : Type}.
Variable getquoted : V -> Py.result string.
Variable decode_utf8 : string -> Py.result string.
Variable py_text : PyFormat.conversion -> PyFormat.object -> string.

(** The two comprehensions. *)
Definition quote_items (items : list (string * V))
  : Py.result (list (string * string)) :=
  mapM (fun '(key, val) =>
          quoted ← getquoted val;
          text ← decode_utf8 quoted;
          Py.Ok (key, text)) items.

Definition quote_vals (vals : list V) : Py.result (list string) :=
  mapM getquoted vals.

(** [mogrify(self, batch, parameters=None, execute=False)] *)
Definition mogrify {Self : Type} (self : Self) (batch : string)
    (parameters : parameters V) (execute : bool) : Py.result string :=
  match parameters with
  | ParamMapping items =>
      pairs ← quote_items items;
      let parameters := dict pairs in
      match parameters with
      | [] => Py.Ok batch
      | _ :: _ => PyFormat.py_mod py_text batch (PyFormat.ObjDict parameters)
      end
  | ParamSequence vals =>
      parameters ← quote_vals vals;
      match parameters with
      | [] => Py.Ok batch
      | _ :: _ => PyFormat.py_mod py_text batch (PyFormat.ObjList parameters)
      end
  | ParamNone => Py.Ok batch
  end.

End Mogrify.

End Mogrify.

(** ** A sample of the driver and of the interpreter's texts

    Concrete stand-ins for the three functions [mogrify] is parametrized
    by, for evaluating it on examples: the driver's quoting of [None] and of
    the booleans, decoding of ASCII bytes, and [str], [repr] and [ascii] of
    dictionaries, lists and strings of characters below 256. *)

Module Sample.

Inductive value : Type :=
| VNone
| VBool (b : bool).

(** [adapt(None).getquoted()] is [b'NULL'], [adapt(True).getquoted()] is
    [b'true'], [adapt(False).getquoted()] is [b'false']. *)
Definition getquoted (v : value) : Py.result string :=
  Py.Ok match v with
        | VNone => "NULL"
        | VBool true => "true"
        | VBool false => "false"
        end.

(** ASCII bytes decode to the same characters; the sample decodes nothing
    else. *)
Definition decode_utf8 (b : string) : Py.result string :=
  if forallb (fun c => (N_of_ascii c <? 128)%N) (list_ascii_of_string b)
  then Py.Ok b
  else Py.Raise Py.UnicodeDecodeError.

Definition quote1 : ascii := ascii_of_nat 39.     (* the single quote *)
Definition quote2 : ascii := ascii_of_nat 34.     (* the double quote *)
Definition backslash : ascii := ascii_of_nat 92.

Definition hex_digit (n : N) : ascii :=
  if (n <? 10)%N then ascii_of_N (48 + n) else ascii_of_N (87 + n).

(** [repr] prefers single quotes, and takes double quotes when the text has
    a single quote and no double quote. *)
Definition pick_quote (s : string) : ascii :=
  if PyFormat.contains quote1 s && negb (PyFormat.contains quote2 s)
  then quote2 else quote1.

(** One character inside the quotes; [printable] tells which characters from
    128 on are written as they are. *)
Definition repr_char (printable : N -> bool) (quote c : ascii) : string :=
  let n := N_of_ascii c in
  if Ascii.eqb c quote || Ascii.eqb c backslash then
    String backslash (String c EmptyString)
  else if (n =? 9)%N then String backslash "t"
  else if (n =? 10)%N then String backslash "n"
  else if (n =? 13)%N then String backslash "r"
  else if (n <? 32)%N || (n =? 127)%N || ((128 <=? n)%N && negb (printable n))
  then String backslash
         (String "x" (String (hex_digit (n / 16))
                        (String (hex_digit (n mod 16)) EmptyString)))
  else String c EmptyString.

Definition repr_quoted (printable : N -> bool) (s : string) : string :=
  let quote := pick_quote s in
  String quote
    (String.concat "" (map (repr_char printable quote) (list_ascii_of_string s))
     +:+ String quote EmptyString).

(** The characters from 128 to 255 that [repr] of a [str] does not escape. *)
Definition latin1_printable (n : N) : bool :=
  (161 <=? n)%N && negb (n =? 173)%N.

Definition repr_str (cv : PyFormat.conversion) (s : string) : string :=
  match cv with
  | PyFormat.ConvA => repr_quoted (fun _ => false) s
  | _ => repr_quoted latin1_printable s
  end.

Definition repr_bytes (s : string) : string :=
  String "b" (repr_quoted (fun _ => false) s).

Definition py_text (cv : PyFormat.conversion) (v : PyFormat.object) : string :=
  match v with
  | PyFormat.ObjDict items =>
      "{" +:+ String.concat ", "
                (map (fun '(k, x) => repr_str cv k +:+ ": " +:+ repr_str cv x)
                     items) +:+ "}"
  | PyFormat.ObjList items =>
      "[" +:+ String.concat ", " (map repr_bytes items) +:+ "]"
  | PyFormat.ObjStr s =>
      match cv with
      | PyFormat.ConvS => s
      | _ => repr_str cv s
      end
  end.

(** What two parameters, [True] under ['a'] and [None] under ['b'], become
    in the mapping branch of [mogrify] and in its sequence branch. *)
Definition operand_dict : PyFormat.object :=
  PyFormat.ObjDict [("a", "true"); ("b", "NULL")].
Definition operand_list : PyFormat.object :=
  PyFormat.ObjList ["true"; "NULL"].

(** [mogrify] with the sample driver. *)
Definition mogrify {Self : Type} (self : Self) (batch : string)
    (parameters : Mogrify.parameters value) (execute : bool)
  : Py.result string :=
  Mogrify.mogrify getquoted decode_utf8 py_text self batch parameters execute.

End Sample.

(** ** Sequences of calls on a cursor *)

Module CursorCalls.
Import MockCursor.

Section Calls.

Context {Stmt Row : Type}.

(** What the [fetchone] calls of a sequence of calls return, in order. *)
Fixpoint fetch_results (ops : list (op Stmt)) (self : cursor Stmt Row)
  : list (Py.result (option Row)) :=
  match ops with
  | [] => []
  | Execute statement :: ops' => fetch_results ops' (execute statement self)
  | FetchOne :: ops' =>
      let '(r, self') := fetchone self in r :: fetch_results ops' self'
  end.

(** The number of [fetchone] calls in a sequence, and the statements it
    executes. *)
Fixpoint fetch_count (ops : list (op Stmt)) : nat :=
  match ops with
  | [] => O
  | Execute _ :: ops' => fetch_count ops'
  | FetchOne :: ops' => S (fetch_count ops')
  end.

Fixpoint executed (ops : list (op Stmt)) : list Stmt :=
  match ops with
  | [] => []
  | Execute statement :: ops' => statement :: executed ops'
  | FetchOne :: ops' => executed ops'
  end.

End Calls.

End CursorCalls.

(** ** Sequences of calls on a bucket *)

Module BucketCalls.
Import MockBucket.

Section Calls.

Context {Key : Type}.

Inductive op : Type :=
| NewKey (keypath : string)
| DeleteKeys (keys : list Key)
| Reset.

Definition step (self : bucket Key) (o : op) : bucket Key :=
  match o with
  | NewKey keypath => snd (new_key keypath self)
  | DeleteKeys keys => delete_keys keys self
  | Reset => reset self
  end.

Definition run (ops : list op) (self : bucket Key) : bucket Key :=
  fold_left step ops self.

(** Every mock stored in the dictionary was made before the [n]-th. *)
Definition made_before (keys : gmap string key_mock) (n : nat) : Prop :=
  forall keypath k, keys !! keypath = Some k -> (k < n)%nat.

(** No mock is stored under two paths. *)
Definition one_path_each (keys : gmap string key_mock) : Prop :=
  forall keypath1 keypath2 k,
    keys !! keypath1 = Some k -> keys !! keypath2 = Some k ->
    keypath1 = keypath2.

End Calls.

Arguments op : clear implicits.

End BucketCalls.

(** ** Templates by their pieces

    The templates [mogrify] is written for: text without a [%], the escape
    [%%], and named placeholders [%(key)s]. *)

Module Template.

Inductive piece : Type :=
| Text (text : string)
| Percent
| Named (key : string).

(** The characters of a piece in the template. *)
Definition piece_source (p : piece) : string :=
  match p with
  | Text text => text
  | Percent => "%%"
  | Named key => "%(" +:+ key +:+ ")s"
  end.

Fixpoint source (pieces : list piece) : string :=
  match pieces with
  | [] => ""
  | p :: pieces' => piece_source p +:+ source pieces'
  end.

(** Text has no [%] in it, and a key no parenthesis. *)
Definition well_formed_piece (p : piece) : bool :=
  match p with
  | Text text => negb (PyFormat.contains "%" text)
  | Percent => true
  | Named key =>
      negb (PyFormat.contains "(" key) && negb (PyFormat.contains ")" key)
  end.

Definition well_formed (pieces : list piece) : bool :=
  forallb well_formed_piece pieces.

(** The pieces with each placeholder replaced by the value the dictionary
    has for its key; [None] when a key is missing. *)
Fixpoint substitute (d : list (string * string)) (pieces : list piece)
  : option string :=
  match pieces with
  | [] => Some ""
  | Text text :: pieces' =>
      rest ← substitute d pieces'; Some (text +:+ rest)
  | Percent :: pieces' =>
      rest ← substitute d pieces'; Some ("%" +:+ rest)
  | Named key :: pieces' =>
      val ← PyFormat.dict_lookup key d;
      rest ← substitute d pieces';
      Some (val +:+ rest)
  end.

End Template.

(** ** A sample with a value the driver cannot quote *)

Module Unadaptable.

(** The sample values, and a plain [object()], for which the driver has no
    adapter: [adapt] raises [ProgrammingError]. *)
Inductive value : Type :=
| Adaptable (v : Sample.value)
| PlainObject.

Definition getquoted (v : value) : Py.result string :=
  match v with
  | Adaptable v => Sample.getquoted v
  | PlainObject => Py.Raise Py.ProgrammingError
  end.

Definition mogrify {Self : Type} (self : Self) (batch : string)
    (parameters : Mogrify.parameters value) (execute : bool)
  : Py.result string :=
  Mogrify.mogrify getquoted Sample.decode_utf8 Sample.py_text
    self batch parameters execute.

End Unadaptable.

(** ** The statement built by the [postgres] fixture (conftest.py, lines
    181-192) *)

Module PostgresFixture.

(** [str(i)] for [i] in a [range]: decimal digits. *)
Definition str_of_nat (n : nat) : string :=
  NilZero.string_of_uint (Nat.to_uint n).

(** [" ({row_count}, '{uuid}', '{name}'),".format(...)] *)
Definition row_to_insert (row_count : nat) (uuid name : string) : string :=
  " (" +:+ str_of_nat row_count +:+ ", '" +:+ uuid +:+ "', '" +:+ name
  +:+ "'),".

(** [s[:-1]] *)
Definition drop_last (s : string) : string :=
  substring 0 (String.length s - 1) s.

Section Fixture.

(** What the two random draws of iteration [i] give: the text of
    [uuid.uuid4()], and the name [random.sample(names, 1)[0]]. *)
Variable uuid_of : nat -> string.
Variable name_of : nat -> string.

(** The list [insert_statement] after the loop over [range(0, n, 1)]. *)
Definition insert_statement (n : nat) : list string :=
  fold_left
    (fun statement i =>
       statement ++ [row_to_insert i (uuid_of i) (name_of i)])
    (seq 0 n)
    ["INSERT INTO test_table VALUES"].

(** ["".join(insert_statement)] *)
Definition joined_insert (n : nat) : string :=
  String.concat "" (insert_statement n).

(** ["{};".format(joined_insert[:-1])], for the fixture's 300 rows. *)
Definition complete_insert : string :=
  drop_last (joined_insert 300) +:+ ";".

(** One row of the statement, without the comma after it. *)
Definition row_tuple (i : nat) : string :=
  " (" +:+ str_of_nat i +:+ ", '" +:+ uuid_of i +:+ "', '" +:+ name_of i
  +:+ "')".

End Fixture.

End PostgresFixture.

(** * Properties *)

(** ** The cursor *)

Module MockCursorProps.
Import MockCursor.

Section Cursor.

Context {Stmt Row : Type}.
Implicit Types (self c : cursor Stmt Row) (rows : list Row).

Lemma getitem_lookup {A} (l : list A) (i : nat) (x : A) :
  l !! i = Some x -> Py.getitem l (Z.of_nat i) = Py.Ok x.
Proof.
  intros Hi. pose proof (lookup_lt_Some _ _ _ Hi) as Hlt.
  unfold Py.getitem, Py.len.
  destruct (Z.ltb_spec (Z.of_nat i) 0) as [Hneg|_]; [lia|].
  destruct (Z.ltb_spec (Z.of_nat i) 0) as [Hneg|_]; [lia|].
  destruct (Z.leb_spec (Z.of_nat (length l)) (Z.of_nat i)) as [Hge|_]; [lia|].
  cbn. rewrite Nat2Z.id, Hi. reflexivity.
Qed.

(** Inside the rows, [fetchone] returns the row at the position and
    advances by one. *)
Lemma fetchone_row c (p : nat) (row : Row) :
  cursor_position c = Z.of_nat p ->
  return_rows c !! p = Some row ->
  fetchone c =
    (Py.Ok (Some row),
     {| statements := statements c;
        return_rows := return_rows c;
        cursor_position := Z.of_nat (S p) |}).
Proof.
  intros Hp Hrow. pose proof (lookup_lt_Some _ _ _ Hrow) as Hlt.
  unfold fetchone. rewrite Hp, Z.gtb_ltb.
  destruct (Z.ltb_spec (Py.len (return_rows c) - 1) (Z.of_nat p)) as [Hge|_].
  { unfold Py.len in Hge. lia. }
  rewrite (getitem_lookup _ _ _ Hrow).
  do 3 f_equal. lia.
Qed.

(** At or past the end, [fetchone] returns [None] and changes nothing. *)
Lemma fetchone_end c :
  Py.len (return_rows c) <= cursor_position c ->
  fetchone c = (Py.Ok None, c).
Proof.
  intros Hge. unfold fetchone. rewrite Z.gtb_ltb.
  destruct (Z.ltb_spec (Py.len (return_rows c) - 1) (cursor_position c));
    [reflexivity | lia].
Qed.

Lemma fetchone_at_index c (p : nat) :
  at_index c p ->
  fst (fetchone c) = Py.Ok (return_rows c !! p) /\
  return_rows (snd (fetchone c)) = return_rows c /\
  at_index (snd (fetchone c)) (S p).
Proof.
  intros [Hp | [Hpos Hlen]].
  - destruct (return_rows c !! p) as [row|] eqn:Hrow.
    + rewrite (fetchone_row c p row Hp Hrow). cbn.
      repeat split. left. reflexivity.
    + apply lookup_ge_None in Hrow.
      rewrite fetchone_end by (unfold Py.len; lia). cbn.
      repeat split. right. unfold Py.len. lia.
  - rewrite fetchone_end by assumption. cbn.
    rewrite lookup_ge_None_2 by assumption.
    repeat split. right. split; [assumption | lia].
Qed.

(** From index [p], the [i]-th of [n] calls returns what is at index
    [p + i], if anything. *)
Lemma fetchone_n_from (n p : nat) c :
  at_index c p ->
  fst (fetchone_n n c) =
    (fun i => Py.Ok (return_rows c !! i)) <$> seq p n.
Proof.
  revert p c. induction n as [|n IH]; intros p c Hp; [reflexivity|].
  cbn [fetchone_n seq fmap list_fmap].
  destruct (fetchone_at_index c p Hp) as (Hout & Hrows & Hnext).
  destruct (fetchone c) as [r c'] eqn:Hf. cbn in Hout, Hrows, Hnext.
  specialize (IH (S p) c' Hnext).
  destruct (fetchone_n n c') as [rs c''] eqn:Hn. cbn in IH |- *.
  rewrite Hout, IH, Hrows. reflexivity.
Qed.

(** Reading a list index by index: its elements in order, then nothing. *)
Lemma lookup_seq_take {A B} (f : option A -> B) (l : list A) (n : nat) :
  (fun i => f (l !! i)) <$> seq 0 n =
    (f ∘ Some <$> take n l) ++ replicate (n - length l) (f None).
Proof.
  revert n. induction l as [|x l IH]; intros n.
  - rewrite take_nil, Nat.sub_0_r. cbn [fmap list_fmap app length].
    generalize 0%nat. induction n as [|n IHn]; intros p; [reflexivity|].
    cbn. f_equal. apply IHn.
  - destruct n as [|n]; [reflexivity|].
    cbn [seq take length Nat.sub fmap list_fmap app].
    rewrite <- fmap_S_seq, <- list_fmap_compose.
    f_equal. apply IH.
Qed.

(** C1.  On a cursor whose rows have just been materialized, successive
    [fetchone] calls return each row exactly once, in the order of
    [return_rows], and every call after the last row returns [None]; no call
    raises. *)
Theorem fetchone_each_row_once_then_none rows (n : nat) :
  fst (fetchone_n n (with_rows (Stmt := Stmt) rows)) =
    (Py.Ok ∘ Some <$> take n rows) ++
    replicate (n - length rows) (Py.Ok None).
Proof.
  rewrite (fetchone_n_from n 0) by (left; reflexivity).
  cbn [with_rows set_return_rows return_rows].
  apply (lookup_seq_take Py.Ok).
Qed.

(** The same from any position inside the rows: the rows from the position
    on, then [None]. *)
Lemma fetchone_n_rest c (p n : nat) :
  cursor_position c = Z.of_nat p ->
  fst (fetchone_n n c) =
    (Py.Ok ∘ Some <$> take n (drop p (return_rows c))) ++
    replicate (n - length (drop p (return_rows c))) (Py.Ok None).
Proof.
  intros Hp. rewrite (fetchone_n_from n p) by (left; assumption).
  rewrite <- (lookup_seq_take Py.Ok).
  rewrite <- (Nat.add_0_r p) at 1. rewrite <- fmap_add_seq, <- list_fmap_compose.
  apply list_fmap_ext. intros _ i _. cbn. rewrite lookup_drop. reflexivity.
Qed.

Example fetchone_three_rows :
  fst (fetchone_n 5 (with_rows (Stmt := string) [10; 20; 30])) =
    [Py.Ok (Some 10); Py.Ok (Some 20); Py.Ok (Some 30);
     Py.Ok None; Py.Ok None].
Proof. reflexivity. Qed.

(** *** [execute] *)

Lemma run_execute c (ss : list Stmt) :
  run (Execute <$> ss) c =
    {| statements := statements c ++ ss;
       return_rows := return_rows c;
       cursor_position := cursor_position c |}.
Proof.
  revert c. induction ss as [|s ss IH]; intros c.
  - destruct c. cbn. rewrite app_nil_r. reflexivity.
  - cbn. unfold run in IH. rewrite IH. cbn.
    rewrite <- app_assoc. reflexivity.
Qed.

(** C7.  After executing the statements [ss] one after the other, the
    cursor's [statements] are what they were followed by [ss] in execution
    order (on a new cursor: exactly [ss]), and neither [return_rows] nor
    [cursor_position] has changed. *)
Theorem execute_records_statements_in_order c rows (ss : list Stmt) :
  statements (run (Execute <$> ss) c) = statements c ++ ss /\
  return_rows (run (Execute <$> ss) c) = return_rows c /\
  cursor_position (run (Execute <$> ss) c) = cursor_position c /\
  statements (run (Execute <$> ss) (with_rows rows)) = ss.
Proof.
  rewrite !run_execute. cbn. repeat split.
Qed.

(** *** The position invariant *)

Lemma fetchone_frame c :
  statements (snd (fetchone c)) = statements c /\
  return_rows (snd (fetchone c)) = return_rows c.
Proof.
  unfold fetchone.
  destruct (cursor_position c >? _); [split; reflexivity|].
  destruct (Py.getitem _ _); split; reflexivity.
Qed.

Lemma step_rows c (o : op Stmt) :
  return_rows (step c o) = return_rows c.
Proof. destruct o; [reflexivity | apply fetchone_frame]. Qed.

Lemma step_position c (o : op Stmt) :
  cursor_position c <= cursor_position (step c o) /\
  (cursor_position c <= Py.len (return_rows c) ->
   cursor_position (step c o) <= Py.len (return_rows c)).
Proof.
  destruct o as [s|]; cbn; [lia|].
  unfold fetchone. rewrite Z.gtb_ltb.
  destruct (Z.ltb_spec (Py.len (return_rows c) - 1) (cursor_position c));
    [cbn; lia|].
  destruct (Py.getitem _ _); cbn; lia.
Qed.

Lemma run_rows (ops : list (op Stmt)) c :
  return_rows (run ops c) = return_rows c.
Proof.
  revert c. induction ops as [|o ops IH]; intros c; [reflexivity|].
  cbn. unfold run in IH. rewrite IH. apply step_rows.
Qed.

Lemma run_position (ops : list (op Stmt)) c :
  cursor_position c <= cursor_position (run ops c) /\
  (cursor_position c <= Py.len (return_rows c) ->
   cursor_position (run ops c) <= Py.len (return_rows c)).
Proof.
  revert c. induction ops as [|o ops IH]; intros c; [cbn; lia|].
  cbn. unfold run in IH.
  destruct (step_position c o) as [Hmono Hbound].
  destruct (IH (step c o)) as [Hmono' Hbound'].
  rewrite step_rows in Hbound'. split; [lia|].
  intros Hc. apply Hbound', Hbound, Hc.
Qed.

(** C4.  Along every sequence of [execute] and [fetchone] calls on a cursor
    that starts within its rows (as a new cursor does), the position never
    decreases from one point of the sequence to a later one, and it never
    exceeds the number of rows in [return_rows]. *)
Theorem cursor_position_monotone_and_bounded c (ops1 ops2 : list (op Stmt)) :
  cursor_position c <= Py.len (return_rows c) ->
  cursor_position c <= cursor_position (run ops1 c) /\
  cursor_position (run ops1 c) <= cursor_position (run (ops1 ++ ops2) c) /\
  cursor_position (run (ops1 ++ ops2) c)
    <= Py.len (return_rows (run (ops1 ++ ops2) c)).
Proof.
  intros Hc. unfold run at 3 4 5. rewrite !fold_left_app.
  fold (run ops1 c). fold (run ops2 (run ops1 c)).
  rewrite !run_rows.
  destruct (run_position ops1 c) as [H1 B1].
  destruct (run_position ops2 (run ops1 c)) as [H2 B2].
  rewrite run_rows in B2. auto.
Qed.

(** The invariant on the cursors the tests build: new, with rows assigned. *)
Lemma with_rows_position_bounded rows (ops : list (op Stmt)) :
  0 <= cursor_position (run ops (with_rows rows)) <= Py.len rows.
Proof.
  destruct (run_position ops (with_rows rows)) as [Hmono Hbound].
  cbn in Hmono, Hbound. unfold Py.len in *. lia.
Qed.

(** *** Iteration *)

(** Resuming a generator that has yielded [k] rows yields the row at index
    [k], if there is one, and leaves the cursor alone. *)
Lemma gen_next_at c (g : generator Row) (k : nat) :
  gen_at (return_rows c) g k ->
  exists g',
    gen_next g c = (return_rows c !! k, g', c) /\
    gen_at (return_rows c) g' (S k).
Proof.
  intros [[-> ->] | [-> | [-> Hlen]]]; cbn; unfold gen_resume.
  - destruct (return_rows c !! 0%nat) as [row|] eqn:Hrow.
    + eexists. split; [reflexivity|]. right. left. reflexivity.
    + apply lookup_ge_None in Hrow.
      eexists. split; [reflexivity|]. right. right. split; [reflexivity | lia].
  - destruct (return_rows c !! k) as [row|] eqn:Hrow.
    + eexists. split; [reflexivity|]. right. left. reflexivity.
    + apply lookup_ge_None in Hrow.
      eexists. split; [reflexivity|]. right. right. split; [reflexivity | lia].
  - rewrite lookup_ge_None_2 by assumption.
    eexists. split; [reflexivity|]. right. right. split; [reflexivity | lia].
Qed.

(** With fuel for the rows still to come and the final resumption, draining
    yields exactly those rows and ends the generator. *)
Lemma gen_drain_at (fuel : nat) c (g : generator Row) (k : nat) :
  gen_at (return_rows c) g k ->
  (length (return_rows c) - k < fuel)%nat ->
  exists g',
    gen_drain fuel g c = (Some (drop k (return_rows c)), g', c).
Proof.
  revert g k. induction fuel as [|fuel IH]; intros g k Hg Hfuel; [lia|].
  destruct (gen_next_at c g k Hg) as (g' & Hnext & Hg').
  cbn [gen_drain]. rewrite Hnext.
  destruct (return_rows c !! k) as [row|] eqn:Hrow.
  - pose proof (lookup_lt_Some _ _ _ Hrow) as Hlt.
    destruct (IH g' (S k) Hg') as (g'' & Hdrain); [lia|].
    rewrite Hdrain. exists g''.
    rewrite (drop_S _ _ _ Hrow). reflexivity.
  - apply lookup_ge_None in Hrow.
    exists g'. rewrite drop_ge by assumption. reflexivity.
Qed.

(** Which generator stands by does not matter to the calls on the cursor. *)
Lemma cursor_calls_ignore_generator (cops : list (op Stmt)) c
    (g g' : generator Row) :
  fetches (fst (mixed_run (OnCursor <$> cops) (g, c))) =
  fetches (fst (mixed_run (OnCursor <$> cops) (g', c))).
Proof.
  revert c. induction cops as [|[s|] cops IHc]; intros c; [reflexivity| |].
  - cbn [mixed_run mixed_step fmap list_fmap].
    specialize (IHc (execute s c)).
    destruct (mixed_run (OnCursor <$> cops) (g', execute s c)).
    destruct (mixed_run (OnCursor <$> cops) (g, execute s c)).
    exact IHc.
  - cbn [mixed_run mixed_step fmap list_fmap].
    destruct (fetchone c) as [r c'].
    specialize (IHc c').
    destruct (mixed_run (OnCursor <$> cops) (g', c')).
    destruct (mixed_run (OnCursor <$> cops) (g, c')).
    cbn in IHc |- *. f_equal. exact IHc.
Qed.

Lemma mixed_run_at (ops : list (mixed_op Stmt)) c (g : generator Row) (k : nat) :
  gen_at (return_rows c) g k ->
  yields (fst (mixed_run ops (g, c))) =
    (fun i => return_rows c !! i) <$> seq k (next_count ops) /\
  snd (snd (mixed_run ops (g, c))) = run (cursor_ops ops) c /\
  fetches (fst (mixed_run ops (g, c))) =
    fetches (fst (mixed_run (OnCursor <$> cursor_ops ops) (g, c))).
Proof.
  revert c g k. induction ops as [|o ops IH]; intros c g k Hg.
  - repeat split.
  - destruct o as [[s|]|].
    + (* execute *)
      specialize (IH (execute s c) g k Hg).
      change (cursor_ops (OnCursor (Execute s) :: ops))
        with (Execute s :: cursor_ops ops).
      change (next_count (OnCursor (Execute s) :: ops)) with (next_count ops).
      cbn [mixed_run mixed_step fmap list_fmap].
      destruct (mixed_run ops (g, execute s c)) as [es st].
      destruct (mixed_run (OnCursor <$> cursor_ops ops) (g, execute s c))
        as [es' st'].
      exact IH.
    + (* fetchone *)
      destruct (fetchone_frame c) as [_ Hrows].
      change (cursor_ops (OnCursor FetchOne :: ops))
        with (FetchOne :: cursor_ops ops).
      change (next_count (OnCursor FetchOne :: ops)) with (next_count ops).
      change (run (FetchOne :: cursor_ops ops) c)
        with (run (cursor_ops ops) (snd (fetchone c))).
      cbn [mixed_run mixed_step fmap list_fmap].
      destruct (fetchone c) as [r c'] eqn:Hf. cbn [snd] in Hrows |- *.
      rewrite <- Hrows in Hg |- *.
      specialize (IH c' g k Hg).
      destruct (mixed_run ops (g, c')) as [es st].
      destruct (mixed_run (OnCursor <$> cursor_ops ops) (g, c')) as [es' st'].
      destruct IH as (Hy & Hc & Hfe).
      repeat split; [exact Hy | exact Hc |].
      cbn in Hfe |- *. f_equal. exact Hfe.
    + (* next *)
      destruct (gen_next_at c g k Hg) as (g' & Hnext & Hg').
      change (cursor_ops (Next :: ops)) with (cursor_ops ops).
      change (next_count (Next :: ops)) with (S (next_count ops)).
      cbn [mixed_run mixed_step fmap list_fmap seq].
      rewrite Hnext.
      specialize (IH c g' (S k) Hg').
      destruct (mixed_run ops (g', c)) as [es st].
      destruct IH as (Hy & Hc & Hfe).
      repeat split; [cbn in Hy |- *; f_equal; exact Hy | exact Hc |].
      change (fetches (fst (Yielded (return_rows c !! k) :: es, st)))
        with (fetches (fst (es, st))).
      rewrite Hfe. apply cursor_calls_ignore_generator.
Qed.

(** C9.  Iterating a cursor yields every row of [return_rows] from the
    first one, whatever [cursor_position] is, and leaves the cursor as it
    was; when resumptions of the iteration are interleaved with calls on the
    cursor, the iteration still yields the rows in order from the first, and
    the cursor and what [fetchone] returns are the same as without the
    iteration. *)
Theorem iteration_independent_of_position c (ops : list (mixed_op Stmt)) :
  iterate c = (Some (return_rows c), c) /\
  yields (fst (mixed_run ops (iter c))) =
    (fun i => return_rows c !! i) <$> seq 0 (next_count ops) /\
  snd (snd (mixed_run ops (iter c))) = run (cursor_ops ops) c /\
  fetches (fst (mixed_run ops (iter c))) =
    fetches (fst (mixed_run (OnCursor <$> cursor_ops ops) (iter c))).
Proof.
  assert (Hg : gen_at (return_rows c) (GenCreated : generator Row) 0).
  { left. split; reflexivity. }
  split; [|apply (mixed_run_at ops c GenCreated 0 Hg)].
  unfold iterate, iter.
  destruct (gen_drain_at (S (length (return_rows c))) c GenCreated 0 Hg)
    as (g' & Hdrain); [lia|].
  rewrite Hdrain. reflexivity.
Qed.

End Cursor.

Lemma cursor_position_monotone_and_bounded_witness :
  cursor_position (with_rows (Stmt := string) [10; 20; 30])
    <= cursor_position
         (run [FetchOne; Execute "SELECT 1"] (with_rows [10; 20; 30])) /\
  cursor_position (run [FetchOne; Execute "SELECT 1"] (with_rows [10; 20; 30]))
    <= cursor_position
         (run ([FetchOne; Execute "SELECT 1"] ++ [FetchOne; FetchOne; FetchOne])
              (with_rows [10; 20; 30])) /\
  cursor_position
    (run ([FetchOne; Execute "SELECT 1"] ++ [FetchOne; FetchOne; FetchOne])
         (with_rows [10; 20; 30]))
    <= Py.len
         (return_rows
            (run ([FetchOne; Execute "SELECT 1"]
                    ++ [FetchOne; FetchOne; FetchOne])
                 (with_rows [10; 20; 30]))).
Proof.
  apply (cursor_position_monotone_and_bounded
           (with_rows (Stmt := string) [10; 20; 30])
           [FetchOne; Execute "SELECT 1"] [FetchOne; FetchOne; FetchOne]).
  vm_compute. discriminate.
Defined.

Example fetch_past_the_end_stays :
  cursor_position (run (replicate 7 FetchOne)
                     (with_rows (Stmt := string) [10; 20; 30])) = 3.
Proof. reflexivity. Qed.

End MockCursorProps.

(** ** The bucket *)

Module MockBucketProps.
Import MockBucket.

Section Bucket.

Context {Key : Type}.
Implicit Types (b : bucket Key) (ks : list Key).

Lemma new_key_lookup b (keypath : string) :
  s3keys (snd (new_key keypath b)) !! keypath = Some (fst (new_key keypath b)).
Proof.
  unfold new_key, s3keys. destruct (own_s3keys b); cbn; apply lookup_insert_eq.
Qed.

(** C8.  [delete_keys] records the given list in [recently_deleted_keys] and
    nothing else: the dictionary [s3keys] (of the class and of the instance)
    is the same afterwards, [name] too, and a key made by [new_key] before
    the deletion is still stored under its path. *)
Theorem delete_keys_only_records b ks (keypath : string) :
  recently_deleted_keys (delete_keys ks b) = Some ks /\
  s3keys (delete_keys ks b) = s3keys b /\
  class_s3keys (delete_keys ks b) = class_s3keys b /\
  own_s3keys (delete_keys ks b) = own_s3keys b /\
  name (delete_keys ks b) = name b /\
  s3keys (delete_keys ks (snd (new_key keypath b))) !! keypath =
    Some (fst (new_key keypath b)).
Proof.
  repeat split. apply (new_key_lookup b keypath).
Qed.

(** After any number of [new_key] calls and deletions the keys are all
    there: only [reset] empties the dictionary. *)
Lemma delete_keys_keeps_every_key b ks (keypaths : list string) :
  s3keys (delete_keys ks (new_keys keypaths b)) = s3keys (new_keys keypaths b).
Proof. reflexivity. Qed.

End Bucket.
End MockBucketProps.

(** ** The patched metadata queries *)

Module MetadataProps.
Import Metadata.

(** C5.  [id_cols] returns the set [{'id_col'}] for the table name
    ['my_identity_table'], and reports no identity columns (it returns
    [None]) for any other table name. *)
Theorem id_cols_identity_table {Self : Type} (self : Self)
    (table_name : string) :
  table_name <> "my_identity_table" ->
  id_cols self "my_identity_table" = Some {["id_col"]} /\
  id_cols self table_name = None.
Proof.
  intros Hother. unfold id_cols. split.
  - reflexivity.
  - destruct (decide (table_name = "my_identity_table")); [contradiction|].
    reflexivity.
Qed.

Lemma id_cols_identity_table_witness :
  id_cols tt "my_identity_table" = Some {["id_col"]} /\
  id_cols tt "my_other_table" = None.
Proof.
  apply (id_cols_identity_table tt "my_other_table").
  vm_compute. discriminate.
Defined.

(** C6.  [columns_and_types] returns the same three columns for every table
    and every [col_str], given or left to its default. *)
Theorem columns_and_types_fixed {Self Table : Type} (self : Self)
    (table : Table) (col_str : option string) :
  columns_and_types self table col_str =
    [("foo", "boolean");
     ("bar", "numeric(23,2)");
     ("baz", "character varying(256)")].
Proof. reflexivity. Qed.

End MetadataProps.

(** ** The [%] operator *)

Module PyFormatProps.
Import PyFormat.

Section Format.

Variable py_text : conversion -> object -> string.

Lemma append_String (c : ascii) (a b : string) :
  String c a +:+ b = String c (a +:+ b).
Proof. reflexivity. Qed.

Lemma append_empty_l (b : string) : "" +:+ b = b.
Proof. reflexivity. Qed.

Lemma append_assoc (a b c : string) : (a +:+ b) +:+ c = a +:+ (b +:+ c).
Proof.
  induction a as [|x a IH]; [reflexivity|].
  rewrite !append_String, IH. reflexivity.
Qed.

Lemma append_empty_r (a : string) : a +:+ "" = a.
Proof.
  induction a as [|x a IH]; [reflexivity|].
  rewrite append_String, IH. reflexivity.
Qed.

(** Text without a [%] is copied to the output. *)
Lemma run_text operand (pre rest : string) st :
  contains "%" pre = false ->
  run py_text operand MText st (pre +:+ rest) =
  run py_text operand MText (write pre st) rest.
Proof.
  revert st. induction pre as [|c pre IH]; intros st Hpre.
  - destruct st as [o p]. rewrite append_empty_l. unfold write. cbn [out pending].
    rewrite append_empty_r. reflexivity.
  - cbn [contains] in Hpre. apply orb_false_elim in Hpre as [Hc Hpre].
    rewrite append_String. cbn [run step]. rewrite Ascii.eqb_sym, Hc.
    cbn [mbind result_bind Py.bind]. rewrite (IH _ Hpre). f_equal.
    unfold write. cbn [out pending]. rewrite append_assoc. reflexivity.
Qed.

(** A mapping key without parentheses is read up to its closing
    parenthesis, and the operand is subscripted with it there. *)
Lemma run_key operand (acc key rest : string) st :
  contains "(" key = false ->
  contains ")" key = false ->
  run py_text operand (MKey 0 acc) st (key +:+ String ")" rest) =
  v ← subscript operand (acc +:+ key);
  run py_text operand (MFlags spec0)
    {| out := out st; pending := Some v |} rest.
Proof.
  revert acc. induction key as [|c key IH]; intros acc Hopen Hclose.
  - rewrite append_empty_l, append_empty_r.
    cbn [run step Ascii.eqb Bool.eqb].
    destruct (subscript operand acc); reflexivity.
  - cbn [contains] in Hopen, Hclose.
    apply orb_false_elim in Hopen as [Hc1 Hopen].
    apply orb_false_elim in Hclose as [Hc2 Hclose].
    rewrite append_String. cbn [run step].
    rewrite (Ascii.eqb_sym c ")"), Hc2, (Ascii.eqb_sym c "("), Hc1.
    cbn [mbind result_bind Py.bind]. rewrite (IH _ Hopen Hclose).
    rewrite append_assoc. reflexivity.
Qed.


(** A plain [%s] takes the pending argument and writes its text. *)
Lemma run_percent_s operand st (rest : string) :
  run py_text operand MText st (String "%" (String "s" rest)) =
  '(v, st') ← take_arg st;
  run py_text operand MText
    (write (emit spec0 true (text_of py_text ConvS v)) st') rest.
Proof.
  cbn [run].
  change (step py_text operand MText "%" st) with (Py.Ok (MStart, st)).
  cbn [mbind result_bind Py.bind].
  change (step py_text operand MStart "s" st)
    with (on_conv py_text spec0 "s" st).
  unfold on_conv. destruct (take_arg st) as [[v st']|e]; reflexivity.
Qed.

Lemma emit_spec0 (truncate : bool) (text : string) :
  emit spec0 truncate text = text.
Proof.
  unfold emit. cbn [prec width spec0].
  rewrite andb_false_r. cbn.
  destruct (Z.ltb_spec (Z.of_nat (String.length text)) (-1)); [lia|].
  reflexivity.
Qed.

(** The operand is one argument: a second [%s] finds none left. *)
Lemma py_mod_two_positional (pre mid rest : string) operand :
  contains "%" pre = false ->
  contains "%" mid = false ->
  py_mod py_text (pre +:+ "%s" +:+ mid +:+ "%s" +:+ rest) operand =
  Py.Raise Py.TypeError.
Proof.
  intros Hpre Hmid. unfold py_mod.
  rewrite (run_text _ _ _ _ Hpre).
  rewrite !append_String, !append_empty_l.
  rewrite run_percent_s. cbn [take_arg write pending out mbind result_bind Py.bind].
  rewrite (run_text _ _ _ _ Hmid).
  rewrite run_percent_s. reflexivity.
Qed.

(** A mapping is one argument too, and a single [%s] renders its text. *)
Lemma py_mod_one_positional (pre rest : string) operand :
  contains "%" pre = false ->
  contains "%" rest = false ->
  is_mapping operand = true ->
  py_mod py_text (pre +:+ "%s" +:+ rest) operand =
  Py.Ok (pre +:+ text_of py_text ConvS operand +:+ rest).
Proof.
  intros Hpre Hrest Hop. unfold py_mod.
  rewrite (run_text _ _ _ _ Hpre).
  rewrite !append_String, !append_empty_l.
  rewrite run_percent_s. cbn [take_arg write pending out mbind result_bind Py.bind].
  rewrite <- (append_empty_r rest) at 1.
  rewrite (run_text _ _ _ _ Hrest).
  cbn [run finish write out pending].
  rewrite emit_spec0, append_empty_l, append_assoc. reflexivity.
Qed.

End Format.

(** *** The operator on concrete operands *)

Example mod_width_precision :
  py_mod Sample.py_text "%(a)6s|%(a)-6s|%(a).2s|%(b)r" Sample.operand_dict
  = Py.Ok "  true|true  |tr|'NULL'".
Proof. reflexivity. Qed.

Example mod_percent_literal :
  py_mod Sample.py_text "100%%" Sample.operand_dict = Py.Ok "100%".
Proof. reflexivity. Qed.

Example mod_percent_after_width :
  py_mod Sample.py_text "%5%" Sample.operand_dict = Py.Raise Py.ValueError.
Proof. reflexivity. Qed.

Example mod_incomplete_key :
  py_mod Sample.py_text "%(a" Sample.operand_dict = Py.Raise Py.ValueError.
Proof. reflexivity. Qed.

Example mod_nested_key :
  py_mod Sample.py_text "%((a))s" Sample.operand_dict = Py.Raise Py.KeyError.
Proof. reflexivity. Qed.

Example mod_number_wanted :
  py_mod Sample.py_text "%(a)d" Sample.operand_dict = Py.Raise Py.TypeError.
Proof. reflexivity. Qed.

Example mod_star_wants_int :
  py_mod Sample.py_text "%(a)*s" Sample.operand_dict = Py.Raise Py.TypeError.
Proof. reflexivity. Qed.

Example mod_positional_after_key :
  py_mod Sample.py_text "%(a)s %s" Sample.operand_dict = Py.Raise Py.TypeError.
Proof. reflexivity. Qed.

Example mod_key_after_positional :
  py_mod Sample.py_text "%s %(a)s" Sample.operand_dict
  = Py.Ok "{'a': 'true', 'b': 'NULL'} true".
Proof. reflexivity. Qed.

Example mod_list_is_one_argument :
  py_mod Sample.py_text "%5.3s|" Sample.operand_list = Py.Ok "  [b'|".
Proof. reflexivity. Qed.

Example mod_list_without_specifier :
  py_mod Sample.py_text "abc" Sample.operand_list = Py.Ok "abc".
Proof. reflexivity. Qed.

Example mod_list_key :
  py_mod Sample.py_text "%(a)s" Sample.operand_list = Py.Raise Py.TypeError.
Proof. reflexivity. Qed.

End PyFormatProps.

(** ** [mogrify] *)

Module MogrifyProps.
Import Mogrify.

Section Mogrify.

Context {V : Type}.
Variable getquoted : V -> Py.result string.
Variable decode_utf8 : string -> Py.result string.
Variable py_text : PyFormat.conversion -> PyFormat.object -> string.

Lemma mapM_result_length {A B} (f : A -> Py.result B) (l : list A)
    (l' : list B) :
  mapM f l = Py.Ok l' -> length l' = length l.
Proof.
  revert l'. induction l as [|x l IH]; intros l' Hl; cbn in Hl.
  - injection Hl as <-. reflexivity.
  - destruct (f x) as [y|e]; cbn in Hl; [|discriminate].
    destruct (mapM f l) as [k|e]; cbn in Hl; [|discriminate].
    injection Hl as <-. cbn. rewrite (IH k eq_refl). reflexivity.
Qed.

Lemma dict_set_nonempty (key val : string) (d : list (string * string)) :
  (0 < length (dict_set key val d))%nat.
Proof.
  destruct d as [|[k v] d]; cbn; [lia|].
  destruct (String.eqb k key); cbn; lia.
Qed.

Lemma dict_nonempty (pairs : list (string * string)) :
  (0 < length pairs)%nat -> (0 < length (dict pairs))%nat.
Proof.
  unfold dict.
  assert (Hkeep : forall ps d,
             (0 < length d)%nat ->
             (0 < length (fold_left
                            (fun d '(key, val) => dict_set key val d) ps d))%nat).
  { induction ps as [|[k v] ps IH]; intros d Hd; [exact Hd|].
    cbn. apply IH, dict_set_nonempty. }
  destruct pairs as [|[k v] pairs]; cbn [length fold_left]; [lia|].
  intros _. apply Hkeep, dict_set_nonempty.
Qed.


(** With a single positional [%s], a mapping is rendered as one value:
    no error. *)
Lemma mogrify_mapping_one_positional {Self : Type} (self : Self)
    (execute : bool) (pre rest : string)
    (items : list (string * V)) (pairs : list (string * string)) :
  PyFormat.contains "%" pre = false ->
  PyFormat.contains "%" rest = false ->
  (0 < length items)%nat ->
  quote_items getquoted decode_utf8 items = Py.Ok pairs ->
  mogrify getquoted decode_utf8 py_text self
    (pre +:+ "%s" +:+ rest) (ParamMapping items) execute
    = Py.Ok (pre +:+ py_text PyFormat.ConvS (PyFormat.ObjDict (dict pairs))
             +:+ rest).
Proof.
  intros Hpre Hrest Hitems Hpairs.
  unfold mogrify. rewrite Hpairs. cbn [mbind result_bind Py.bind].
  pose proof (mapM_result_length _ _ _ Hpairs) as Hlen.
  pose proof (dict_nonempty pairs) as Hdict.
  destruct (dict pairs) as [|p d] eqn:Hd; [cbn in Hdict; lia|].
  apply PyFormatProps.py_mod_one_positional; [assumption .. | reflexivity].
Qed.

(** C10.  With [None], an empty mapping or an empty sequence as parameters,
    [mogrify] returns the template as it is, placeholders included. *)
Theorem mogrify_empty_parameters_unchanged {Self : Type} (self : Self)
    (batch : string) (execute : bool) :
  mogrify getquoted decode_utf8 py_text self batch ParamNone execute
    = Py.Ok batch /\
  mogrify getquoted decode_utf8 py_text self batch (ParamMapping []) execute
    = Py.Ok batch /\
  mogrify getquoted decode_utf8 py_text self batch (ParamSequence []) execute
    = Py.Ok batch.
Proof. repeat split. Qed.

End Mogrify.

(** *** On the sample driver *)

Example mogrify_named :
  Sample.mogrify tt "SELECT %(a)s, %(b)s"
    (ParamMapping [("a", Sample.VBool true); ("b", Sample.VNone)]) false
  = Py.Ok "SELECT true, NULL".
Proof. reflexivity. Qed.

Example mogrify_missing_key :
  Sample.mogrify tt "SELECT %(c)s"
    (ParamMapping [("a", Sample.VBool true)]) false
  = Py.Raise Py.KeyError.
Proof. reflexivity. Qed.

Example mogrify_sequence_is_one_argument :
  Sample.mogrify tt "SELECT %s"
    (ParamSequence [Sample.VBool true; Sample.VNone]) false
  = Py.Ok "SELECT [b'true', b'NULL']".
Proof. reflexivity. Qed.

Example mogrify_unfinished_specifier :
  Sample.mogrify tt "100%" (ParamSequence [Sample.VNone]) false
  = Py.Raise Py.ValueError.
Proof. reflexivity. Qed.



End MogrifyProps.

(** ** More on the cursor *)

Module CursorCallsProps.
Import MockCursor CursorCalls.

Section Calls.

Context {Stmt Row : Type}.
Implicit Types (self c : cursor Stmt Row) (rows : list Row).

Lemma fetchone_n_add (n m : nat) c :
  fetchone_n (n + m) c =
    (fst (fetchone_n n c) ++ fst (fetchone_n m (snd (fetchone_n n c))),
     snd (fetchone_n m (snd (fetchone_n n c)))).
Proof.
  revert c. induction n as [|n IH]; intros c.
  - cbn. destruct (fetchone_n m c); reflexivity.
  - cbn [Nat.add fetchone_n]. destruct (fetchone c) as [r c'].
    rewrite (IH c'). destruct (fetchone_n n c') as [rs c''].
    cbn. reflexivity.
Qed.

(** [execute] does not touch what [fetchone] reads. *)
Lemma fetchone_execute (s : Stmt) c :
  fetchone (execute s c) = (fst (fetchone c), execute s (snd (fetchone c))).
Proof.
  unfold fetchone, execute. cbn.
  destruct (cursor_position c >? _); [reflexivity|].
  destruct (Py.getitem _ _); reflexivity.
Qed.

Lemma fetchone_n_execute (n : nat) (s : Stmt) c :
  fetchone_n n (execute s c) =
    (fst (fetchone_n n c), execute s (snd (fetchone_n n c))).
Proof.
  revert c. induction n as [|n IH]; intros c; [reflexivity|].
  cbn [fetchone_n]. rewrite fetchone_execute.
  destruct (fetchone c) as [r c']. cbn [fst snd].
  rewrite (IH c'). destruct (fetchone_n n c') as [rs c'']. reflexivity.
Qed.

(** A sequence of calls splits into its [execute] calls and its [fetchone]
    calls. *)
Lemma run_split (ops : list (op Stmt)) c :
  fetch_results ops c = fst (fetchone_n (fetch_count ops) c) /\
  statements (run ops c) = statements c ++ executed ops /\
  return_rows (run ops c) = return_rows c /\
  cursor_position (run ops c) =
    cursor_position (snd (fetchone_n (fetch_count ops) c)).
Proof.
  revert c. induction ops as [|[s|] ops IH]; intros c.
  - cbn. rewrite app_nil_r. repeat split.
  - destruct (IH (execute s c)) as (Hres & Hst & Hrows & Hpos).
    cbn [fetch_results fetch_count executed].
    change (run (Execute s :: ops) c) with (run ops (execute s c)).
    rewrite Hres, Hst, Hrows, Hpos, fetchone_n_execute. cbn.
    rewrite <- app_assoc. repeat split.
  - destruct (MockCursorProps.fetchone_frame c) as [Hst0 Hrows0].
    cbn [fetch_results fetch_count executed fetchone_n].
    change (run (FetchOne :: ops) c) with (run ops (snd (fetchone c))).
    destruct (fetchone c) as [r c']. cbn [snd] in *.
    destruct (IH c') as (Hres & Hst & Hrows & Hpos).
    rewrite Hres, Hst, Hrows, Hpos, Hst0, Hrows0.
    destruct (fetchone_n (fetch_count ops) c') as [rs c'']. repeat split.
Qed.

(** X1.  Interleaved [execute] calls change nothing for [fetchone]: the
    [fetchone] calls of any sequence return what as many calls in a row
    return, and leave the position where those leave it; [return_rows] stays
    as it is, and [statements] gains the executed statements in order,
    whatever is fetched in between. *)
Theorem execute_and_fetchone_independent (ops : list (op Stmt)) c :
  fetch_results ops c = fst (fetchone_n (fetch_count ops) c) /\
  cursor_position (run ops c) =
    cursor_position (snd (fetchone_n (fetch_count ops) c)) /\
  return_rows (run ops c) = return_rows c /\
  statements (run ops c) = statements c ++ executed ops.
Proof.
  destruct (run_split ops c) as (Hres & Hst & Hrows & Hpos). auto.
Qed.

(** After [n] calls from index [p] the cursor stands [n] rows further, or
    at the end of the rows. *)
Lemma fetchone_n_position (n p : nat) c :
  cursor_position c = Z.of_nat p ->
  (p <= length (return_rows c))%nat ->
  cursor_position (snd (fetchone_n n c))
    = Z.of_nat (Nat.min (p + n) (length (return_rows c))).
Proof.
  revert p c. induction n as [|n IH]; intros p c Hp Hle.
  - cbn. rewrite Hp. f_equal. lia.
  - cbn [fetchone_n].
    destruct (return_rows c !! p) as [row|] eqn:Hrow.
    + pose proof (lookup_lt_Some _ _ _ Hrow) as Hlt.
      rewrite (MockCursorProps.fetchone_row c p row Hp Hrow).
      specialize (IH (S p)
        {| statements := statements c;
           return_rows := return_rows c;
           cursor_position := Z.of_nat (S p) |} eq_refl).
      cbn [return_rows] in IH.
      destruct (fetchone_n n _) as [rs c'']. cbn [snd] in *.
      rewrite IH by lia. f_equal. lia.
    + apply lookup_ge_None in Hrow.
      rewrite MockCursorProps.fetchone_end by (unfold Py.len; lia).
      specialize (IH p c Hp Hle).
      destruct (fetchone_n n c) as [rs c'']. cbn [snd] in *.
      rewrite IH. f_equal. lia.
Qed.

(** X2.  On a new cursor with rows assigned, the position after any
    sequence of calls is the number of [fetchone] calls made, capped at the
    number of rows. *)
Theorem cursor_position_counts_fetches rows (ops : list (op Stmt)) :
  cursor_position (run ops (with_rows rows))
    = Z.of_nat (Nat.min (fetch_count ops) (length rows)).
Proof.
  destruct (run_split ops (with_rows rows)) as (_ & _ & _ & Hpos).
  rewrite Hpos.
  rewrite (fetchone_n_position (fetch_count ops) 0 (with_rows rows));
    [reflexivity | reflexivity | cbn; lia].
Qed.

(** X3.  From a negative position [-k] that Python's indexing accepts
    ([k] at most the number of rows), the next [k] calls return the last [k]
    rows in order, and the cursor then stands at the first row: the rows are
    returned once more from the start. *)
Theorem fetchone_negative_position_wraps (k : nat) c :
  (k <= length (return_rows c))%nat ->
  cursor_position c = - Z.of_nat k ->
  fst (fetchone_n k c)
    = (Py.Ok ∘ Some <$> drop (length (return_rows c) - k) (return_rows c)) /\
  cursor_position (snd (fetchone_n k c)) = 0 /\
  return_rows (snd (fetchone_n k c)) = return_rows c.
Proof.
  revert c. induction k as [|k IH]; intros c Hle Hpos.
  - cbn. rewrite Nat.sub_0_r, drop_all. repeat split. rewrite Hpos. reflexivity.
  - cbn [fetchone_n].
    destruct (lookup_lt_is_Some_2 (return_rows c)
                (length (return_rows c) - S k)) as [row Hrow]; [lia|].
    assert (Hf : fetchone c =
              (Py.Ok (Some row),
               {| statements := statements c;
                  return_rows := return_rows c;
                  cursor_position := - Z.of_nat k |})).
    { unfold fetchone. rewrite Hpos, Z.gtb_ltb.
      destruct (Z.ltb_spec (Py.len (return_rows c) - 1) (- Z.of_nat (S k)))
        as [Hlt|_]; [unfold Py.len in Hlt; lia|].
      unfold Py.getitem, Py.len.
      destruct (Z.ltb_spec (- Z.of_nat (S k)) 0) as [_|Hge]; [|lia].
      destruct (Z.ltb_spec
                  (- Z.of_nat (S k) + Z.of_nat (length (return_rows c))) 0)
        as [Hlt|_]; [lia|].
      destruct (Z.leb_spec (Z.of_nat (length (return_rows c)))
                  (- Z.of_nat (S k) + Z.of_nat (length (return_rows c))))
        as [Hlt|_]; [lia|].
      cbn [orb].
      replace (Z.to_nat (- Z.of_nat (S k) + Z.of_nat (length (return_rows c))))
        with (length (return_rows c) - S k)%nat by lia.
      rewrite Hrow. do 3 f_equal. lia. }
    rewrite Hf.
    specialize (IH
      {| statements := statements c;
         return_rows := return_rows c;
         cursor_position := - Z.of_nat k |}).
    cbn [return_rows cursor_position] in IH.
    destruct IH as (Hout & Hzero & Hrows); [lia | reflexivity |].
    destruct (fetchone_n k _) as [rs c'']. cbn [fst snd] in *.
    rewrite Hout. repeat split; [|assumption..].
    rewrite (drop_S _ _ _ Hrow).
    replace (S (length (return_rows c) - S k))
      with (length (return_rows c) - k)%nat by lia.
    reflexivity.
Qed.

(** X4.  At a position below minus the number of rows, [fetchone] raises
    [IndexError] and leaves the cursor as it is, so that every later call
    raises it again. *)
Theorem fetchone_below_range_raises (n : nat) c :
  cursor_position c < - Py.len (return_rows c) ->
  fetchone_n n c = (replicate n (Py.Raise Py.IndexError), c).
Proof.
  intros Hpos.
  assert (Hf : fetchone c = (Py.Raise Py.IndexError, c)).
  { unfold fetchone. rewrite Z.gtb_ltb. unfold Py.len in *.
    destruct (Z.ltb_spec (Z.of_nat (length (return_rows c)) - 1)
                (cursor_position c)) as [Hlt|_]; [lia|].
    unfold Py.getitem, Py.len.
    destruct (Z.ltb_spec (cursor_position c) 0) as [_|Hge]; [|lia].
    destruct (Z.ltb_spec
                (cursor_position c + Z.of_nat (length (return_rows c))) 0)
      as [_|Hge]; [|lia].
    reflexivity. }
  induction n as [|n IH]; [reflexivity|].
  cbn [fetchone_n replicate]. rewrite Hf, IH. reflexivity.
Qed.

(** X5.  From any index [p] of the rows, [n] calls return the rows from [p]
    on, in order, and then [None]: rows assigned while the cursor stands at
    [p] are read from their index [p], not from their first. *)
Theorem fetchone_continues_from_position c (p n : nat) :
  cursor_position c = Z.of_nat p ->
  fst (fetchone_n n c) =
    (Py.Ok ∘ Some <$> take n (drop p (return_rows c))) ++
    replicate (n - length (drop p (return_rows c))) (Py.Ok None).
Proof.
  intros Hp.
  rewrite (MockCursorProps.fetchone_n_from n p) by (left; assumption).
  rewrite <- (MockCursorProps.lookup_seq_take Py.Ok).
  rewrite <- (Nat.add_0_r p) at 1. rewrite <- fmap_add_seq, <- list_fmap_compose.
  apply list_fmap_ext. intros _ i _. cbn. rewrite lookup_drop. reflexivity.
Qed.

(** A generator inside its loop reads the list it started on, whatever the
    cursor holds by then. *)
Lemma gen_drain_running (fuel : nat) (rows : list Row) (k : nat) c :
  (length rows - k < fuel)%nat ->
  gen_drain fuel (GenRunning rows k) c = (Some (drop k rows), GenDone, c).
Proof.
  revert k. induction fuel as [|fuel IH]; intros k Hfuel; [lia|].
  cbn [gen_drain gen_next]. unfold gen_resume.
  destruct (rows !! k) as [row|] eqn:Hrow.
  - pose proof (lookup_lt_Some _ _ _ Hrow) as Hlt.
    rewrite (IH (S k)) by lia. rewrite (drop_S _ _ _ Hrow). reflexivity.
  - apply lookup_ge_None in Hrow. rewrite drop_ge by assumption. reflexivity.
Qed.

(** X6.  An iteration reads [return_rows] when it is first resumed, and
    keeps to that list: rows assigned to the cursor before the first
    resumption are the ones yielded, rows assigned after it are not seen,
    and the iteration goes on through the list it started on. *)
Theorem iteration_keeps_its_rows (stmts : list Stmt) (row : Row)
    (rest rows' : list Row) (pos : Z) :
  gen_drain (S (length rows')) GenCreated
    (set_return_rows rows'
       {| statements := stmts; return_rows := row :: rest;
          cursor_position := pos |})
  = (Some rows', GenDone,
     {| statements := stmts; return_rows := rows'; cursor_position := pos |}) /\
  gen_next GenCreated
    {| statements := stmts; return_rows := row :: rest;
       cursor_position := pos |}
  = (Some row, GenRunning (row :: rest) 1,
     {| statements := stmts; return_rows := row :: rest;
        cursor_position := pos |}) /\
  gen_drain (S (length rest)) (GenRunning (row :: rest) 1)
    (set_return_rows rows'
       {| statements := stmts; return_rows := row :: rest;
          cursor_position := pos |})
  = (Some rest, GenDone,
     {| statements := stmts; return_rows := rows'; cursor_position := pos |}).
Proof.
  split; [|split].
  - unfold set_return_rows. cbn [statements cursor_position].
    set (c := {| statements := stmts; return_rows := rows';
                 cursor_position := pos |}).
    destruct rows' as [|r rows'].
    + reflexivity.
    + cbn [gen_drain gen_next gen_resume lookup list_lookup return_rows c].
      cbn [length]. rewrite (gen_drain_running _ (r :: rows') 1 c) by (cbn; lia).
      reflexivity.
  - reflexivity.
  - rewrite gen_drain_running by (cbn; lia). reflexivity.
Qed.

End Calls.

Lemma fetchone_negative_position_wraps_witness :
  fst (fetchone_n 2
         {| statements := ([] : list string); return_rows := [10; 20; 30];
            cursor_position := - Z.of_nat 2 |})
    = (Py.Ok ∘ Some <$> drop (length [10; 20; 30] - 2) [10; 20; 30]) /\
  cursor_position
    (snd (fetchone_n 2
            {| statements := ([] : list string); return_rows := [10; 20; 30];
               cursor_position := - Z.of_nat 2 |})) = 0 /\
  return_rows
    (snd (fetchone_n 2
            {| statements := ([] : list string); return_rows := [10; 20; 30];
               cursor_position := - Z.of_nat 2 |})) = [10; 20; 30].
Proof.
  apply (fetchone_negative_position_wraps 2
           {| statements := ([] : list string); return_rows := [10; 20; 30];
              cursor_position := - Z.of_nat 2 |}).
  - cbn. lia.
  - reflexivity.
Defined.

Lemma fetchone_below_range_raises_witness :
  fetchone_n 3
    {| statements := ([] : list string); return_rows := [10; 20];
       cursor_position := -3 |}
  = (replicate 3 (Py.Raise Py.IndexError),
     {| statements := []; return_rows := [10; 20]; cursor_position := -3 |}).
Proof.
  apply (fetchone_below_range_raises 3
           {| statements := ([] : list string); return_rows := [10; 20];
              cursor_position := -3 |}).
  vm_compute. reflexivity.
Defined.

Lemma fetchone_continues_from_position_witness :
  fst (fetchone_n 3
         {| statements := ([] : list string); return_rows := [10; 20; 30];
            cursor_position := Z.of_nat 2 |})
  = (Py.Ok ∘ Some <$> take 3 (drop 2 [10; 20; 30])) ++
    replicate (3 - length (drop 2 [10; 20; 30])) (Py.Ok None).
Proof.
  apply (fetchone_continues_from_position
           {| statements := ([] : list string); return_rows := [10; 20; 30];
              cursor_position := Z.of_nat 2 |} 2 3).
  reflexivity.
Defined.

Example negative_position_then_all_rows :
  fst (fetchone_n 6
         {| statements := ([] : list string); return_rows := [10; 20; 30];
            cursor_position := -2 |})
  = [Py.Ok (Some 20); Py.Ok (Some 30);
     Py.Ok (Some 10); Py.Ok (Some 20); Py.Ok (Some 30); Py.Ok None].
Proof. reflexivity. Qed.

End CursorCallsProps.

(** ** More on the bucket *)

Module BucketCallsProps.
Import MockBucket BucketCalls.

Section Calls.

Context {Key : Type}.
Implicit Types (b : bucket Key) (ops : list (op Key)).

Lemma s3keys_new_key b (keypath : string) :
  s3keys (snd (new_key keypath b)) = <[keypath := mocks_made b]> (s3keys b) /\
  mocks_made (snd (new_key keypath b)) = S (mocks_made b) /\
  fst (new_key keypath b) = mocks_made b.
Proof.
  unfold new_key, s3keys. destruct (own_s3keys b); cbn; repeat split.
Qed.

(** The stored mocks are older than the next one, and each is stored under
    one path only: both hold at the start and are kept by every call. *)
Lemma step_keeps_mocks_apart b (o : op Key) :
  made_before (s3keys b) (mocks_made b) ->
  one_path_each (s3keys b) ->
  made_before (s3keys (step b o)) (mocks_made (step b o)) /\
  one_path_each (s3keys (step b o)).
Proof.
  intros Hold Hone. destruct o as [keypath|keys|].
  - destruct (s3keys_new_key b keypath) as (Hkeys & Hmade & _).
    cbn [step]. rewrite Hkeys, Hmade. split.
    + intros kp k Hk. destruct (decide (keypath = kp)) as [->|Hne].
      * rewrite lookup_insert_eq in Hk. injection Hk as <-. lia.
      * rewrite lookup_insert_ne in Hk by assumption.
        specialize (Hold kp k Hk). lia.
    + intros kp1 kp2 k Hk1 Hk2.
      destruct (decide (keypath = kp1)) as [Heq1|Hne1];
        destruct (decide (keypath = kp2)) as [Heq2|Hne2]; subst.
      * reflexivity.
      * rewrite lookup_insert_eq in Hk1. injection Hk1 as <-.
        rewrite lookup_insert_ne in Hk2 by assumption.
        specialize (Hold kp2 _ Hk2). lia.
      * rewrite lookup_insert_eq in Hk2. injection Hk2 as <-.
        rewrite lookup_insert_ne in Hk1 by assumption.
        specialize (Hold kp1 _ Hk1). lia.
      * rewrite lookup_insert_ne in Hk1, Hk2 by assumption.
        exact (Hone kp1 kp2 k Hk1 Hk2).
  - split; assumption.
  - cbn [step]. unfold reset, s3keys. cbn. split.
    + intros kp k Hk. rewrite lookup_empty in Hk. discriminate.
    + intros kp1 kp2 k Hk. rewrite lookup_empty in Hk. discriminate.
Qed.

Lemma run_keeps_mocks_apart ops b :
  made_before (s3keys b) (mocks_made b) ->
  one_path_each (s3keys b) ->
  made_before (s3keys (run ops b)) (mocks_made (run ops b)) /\
  one_path_each (s3keys (run ops b)).
Proof.
  revert b. induction ops as [|o ops IH]; intros b Hold Hone; [split; assumption|].
  destruct (step_keeps_mocks_apart b o Hold Hone) as [Hold' Hone'].
  exact (IH (step b o) Hold' Hone').
Qed.

(** X7.  After any sequence of [new_key], [delete_keys] and [reset] calls
    on a new bucket, the mock the next [new_key] call returns is none of the
    mocks stored in [s3keys], and no mock is stored under two different
    paths. *)
Theorem new_key_mocks_are_distinct ops (keypath1 keypath : string)
    (k1 : key_mock) :
  s3keys (run ops init) !! keypath1 = Some k1 ->
  fst (new_key keypath (run ops init)) <> k1 /\
  forall keypath2 : string,
    s3keys (run ops init) !! keypath2 = Some k1 -> keypath2 = keypath1.
Proof.
  intros Hk1.
  destruct (run_keeps_mocks_apart ops (init (Key := Key))) as [Hold Hone].
  { intros kp k Hk. cbn in Hk. rewrite lookup_empty in Hk. discriminate. }
  { intros kp1 kp2 k Hk. cbn in Hk. rewrite lookup_empty in Hk. discriminate. }
  split.
  - destruct (s3keys_new_key (run ops init) keypath) as (_ & _ & ->).
    specialize (Hold _ _ Hk1). lia.
  - intros keypath2 Hk2. exact (Hone _ _ _ Hk2 Hk1).
Qed.

(** Without a dictionary of its own, a bucket stores its keys in the
    class's. *)
Lemma new_keys_on_class (keypaths : list string) b :
  own_s3keys b = None ->
  own_s3keys (new_keys keypaths b) = None /\
  dom (class_s3keys (new_keys keypaths b))
    = dom (class_s3keys b) ∪ list_to_set keypaths.
Proof.
  revert b. induction keypaths as [|kp kps IH]; intros b Hown.
  - cbn. split; [assumption|]. rewrite (right_id_L ∅ (∪)). reflexivity.
  - cbn [new_keys fold_left]. fold (new_keys kps (snd (new_key kp b))).
    destruct (IH (snd (new_key kp b))) as [Hnone Hdom].
    { unfold new_key. rewrite Hown. reflexivity. }
    split; [assumption|]. rewrite Hdom.
    unfold new_key. rewrite Hown. cbn [snd class_s3keys list_to_set].
    rewrite dom_insert_L.
    rewrite (comm_L (∪) {[kp]} (dom (class_s3keys b))).
    rewrite <- (assoc_L (∪)). reflexivity.
Qed.

(** With a dictionary of its own, it stores them there and leaves the
    class's alone. *)
Lemma new_keys_on_instance (keypaths : list string) b
    (own : gmap string key_mock) :
  own_s3keys b = Some own ->
  class_s3keys (new_keys keypaths b) = class_s3keys b /\
  dom (s3keys (new_keys keypaths b)) = dom own ∪ list_to_set keypaths.
Proof.
  revert b own. induction keypaths as [|kp kps IH]; intros b own Hown.
  - cbn. unfold s3keys. rewrite Hown. split; [reflexivity|].
    rewrite (right_id_L ∅ (∪)). reflexivity.
  - cbn [new_keys fold_left]. fold (new_keys kps (snd (new_key kp b))).
    destruct (IH (snd (new_key kp b)) (<[kp := mocks_made b]> own))
      as [Hclass Hdom].
    { unfold new_key. rewrite Hown. reflexivity. }
    rewrite Hclass, Hdom. split.
    + unfold new_key. rewrite Hown. reflexivity.
    + rewrite dom_insert_L. cbn [list_to_set].
      rewrite (comm_L (∪) {[kp]} (dom own)).
      rewrite <- (assoc_L (∪)). reflexivity.
Qed.

(** X8.  The keys made on a new bucket are stored in the dictionary of the
    class.  [reset] gives the bucket an empty dictionary and an empty list
    of deleted keys of its own, and does not empty the class's dictionary:
    the keys made before stay there, and the keys made after the [reset] are
    the only ones the bucket shows. *)
Theorem reset_leaves_class_dictionary (before after : list string) :
  dom (class_s3keys (new_keys before (init (Key := Key))))
    = list_to_set before /\
  s3keys (reset (new_keys before (init (Key := Key)))) = ∅ /\
  recently_deleted_keys (reset (new_keys before (init (Key := Key))))
    = Some [] /\
  dom (class_s3keys (new_keys after (reset (new_keys before (init (Key := Key))))))
    = list_to_set before /\
  dom (s3keys (new_keys after (reset (new_keys before (init (Key := Key))))))
    = list_to_set after.
Proof.
  destruct (new_keys_on_class before (init (Key := Key)) eq_refl)
    as [Hnone Hdom].
  destruct (new_keys_on_instance after
              (reset (new_keys before (init (Key := Key)))) ∅ eq_refl)
    as [Hclass Hdom'].
  rewrite Hclass, Hdom'. cbn [reset class_s3keys].
  rewrite Hdom. cbn [init class_s3keys].
  rewrite dom_empty_L, !(left_id_L ∅ (∪)).
  repeat split.
Qed.

End Calls.

Lemma new_key_mocks_are_distinct_witness :
  fst (new_key "b" (run [NewKey "a"] (init (Key := string)))) <> 0%nat /\
  forall keypath2 : string,
    s3keys (run [NewKey "a"] (init (Key := string))) !! keypath2 = Some 0%nat ->
    keypath2 = "a".
Proof.
  apply (new_key_mocks_are_distinct [NewKey "a"] "a" "b" 0%nat).
  vm_compute. reflexivity.
Defined.

Example new_key_twice_and_another :
  s3keys (run [NewKey "a"; DeleteKeys ["a"]; NewKey "a"; NewKey "b"]
            (init (Key := string)))
  = {["a" := 1%nat; "b" := 2%nat]}.
Proof.
  apply map_eq. intros keypath. cbn.
  unfold s3keys, new_key. cbn. rewrite insert_insert_eq. reflexivity.
Qed.

End BucketCallsProps.

(** ** More on [mogrify] *)

Module TemplateProps.
Import PyFormat Mogrify Template.

Section Templates.

Context {V : Type}.
Variable getquoted : V -> Py.result string.
Variable decode_utf8 : string -> Py.result string.
Variable py_text : conversion -> object -> string.

(** [%%] writes one [%] and takes no argument. *)
Lemma run_percent_percent operand st (rest : string) :
  run py_text operand MText st (String "%" (String "%" rest)) =
  run py_text operand MText (write "%" st) rest.
Proof. reflexivity. Qed.

(** After a key, a plain [s] writes the value found. *)
Lemma run_named_value operand (o : string) (val rest : string) :
  run py_text operand (MFlags spec0)
    {| out := o; pending := Some (ObjStr val) |} (String "s" rest) =
  run py_text operand MText {| out := o +:+ val; pending := None |} rest.
Proof.
  cbn [run].
  change (step py_text operand (MFlags spec0) "s"
            {| out := o; pending := Some (ObjStr val) |})
    with (on_conv py_text spec0 "s"
            {| out := o; pending := Some (ObjStr val) |}).
  unfold on_conv. cbn [take_arg pending out mbind result_bind Py.bind text_of].
  rewrite PyFormatProps.emit_spec0. reflexivity.
Qed.

(** A template of well-formed pieces is rendered piece by piece. *)
Lemma run_pieces (d : list (string * string)) (pieces : list piece) st :
  well_formed pieces = true ->
  run py_text (ObjDict d) MText st (source pieces) =
  match substitute d pieces with
  | Some text => Py.Ok (out st +:+ text)
  | None => Py.Raise Py.KeyError
  end.
Proof.
  revert st. induction pieces as [|p pieces IH]; intros st Hwf.
  - cbn. destruct (pending st); rewrite PyFormatProps.append_empty_r;
      reflexivity.
  - cbn [well_formed forallb] in Hwf. apply andb_prop in Hwf as [Hp Hwf].
    fold (well_formed pieces) in Hwf.
    destruct p as [text| |key]; cbn [source piece_source substitute].
    + cbn [well_formed_piece] in Hp. apply negb_true_iff in Hp.
      rewrite (PyFormatProps.run_text _ _ _ _ _ Hp), (IH _ Hwf).
      destruct (substitute d pieces) as [rest|]; [|reflexivity].
      cbn. rewrite PyFormatProps.append_assoc. reflexivity.
    + rewrite !PyFormatProps.append_String, PyFormatProps.append_empty_l.
      rewrite run_percent_percent, (IH _ Hwf).
      destruct (substitute d pieces) as [rest|]; [|reflexivity].
      cbn. rewrite PyFormatProps.append_assoc. reflexivity.
    + cbn [well_formed_piece] in Hp. apply andb_prop in Hp as [Hopen Hclose].
      apply negb_true_iff in Hopen, Hclose.
      rewrite !PyFormatProps.append_String, PyFormatProps.append_empty_l.
      rewrite !PyFormatProps.append_assoc.
      rewrite !PyFormatProps.append_String, PyFormatProps.append_empty_l.
      cbn [run].
      change (step py_text (ObjDict d) MText "%" st) with (Py.Ok (MStart, st)).
      cbn [mbind result_bind Py.bind].
      change (step py_text (ObjDict d) MStart "(" st)
        with (Py.Ok (MKey 0 "", st)).
      cbn [mbind result_bind Py.bind].
      rewrite (PyFormatProps.run_key _ _ "" _ _ _ Hopen Hclose).
      rewrite PyFormatProps.append_empty_l. cbn [subscript].
      destruct (dict_lookup key d) as [val|]; [|reflexivity].
      cbn [mbind result_bind Py.bind option_bind].
      rewrite run_named_value, (IH _ Hwf). cbn [out].
      destruct (substitute d pieces) as [rest|]; [|reflexivity].
      cbn. rewrite PyFormatProps.append_assoc. reflexivity.
Qed.

(** [mogrify] on a template of pieces and a non-empty mapping. *)
Lemma mogrify_pieces {Self : Type} (self : Self)
    (execute : bool) (pieces : list piece)
    (items : list (string * V)) (pairs : list (string * string)) :
  well_formed pieces = true ->
  (0 < length items)%nat ->
  quote_items getquoted decode_utf8 items = Py.Ok pairs ->
  mogrify getquoted decode_utf8 py_text self (source pieces)
    (ParamMapping items) execute
  = match substitute (dict pairs) pieces with
    | Some text => Py.Ok text
    | None => Py.Raise Py.KeyError
    end.
Proof.
  intros Hwf Hitems Hpairs.
  unfold mogrify. rewrite Hpairs. cbn [mbind result_bind Py.bind].
  pose proof (MogrifyProps.mapM_result_length _ _ _ Hpairs) as Hlen.
  pose proof (MogrifyProps.dict_nonempty pairs) as Hdict.
  destruct (dict pairs) as [|p d] eqn:Hd; [cbn in Hdict; lia|].
  unfold py_mod. rewrite (run_pieces _ _ _ Hwf). cbn [out].
  destruct (substitute (p :: d) pieces); reflexivity.
Qed.

(** X9.  With a non-empty mapping whose values the driver can quote to
    bytes that decode as UTF-8, a template made of text, [%%] and
    placeholders [%(key)s] is rendered by writing text as it is, [%] for
    [%%], and for each placeholder the quoted and decoded value of its key;
    if a key is not in the mapping, [mogrify] raises [KeyError]. *)
Theorem mogrify_substitutes_named {Self : Type} (self : Self)
    (execute : bool) (pieces : list piece)
    (items : list (string * V)) (pairs : list (string * string)) :
  well_formed pieces = true ->
  (0 < length items)%nat ->
  quote_items getquoted decode_utf8 items = Py.Ok pairs ->
  mogrify getquoted decode_utf8 py_text self (source pieces)
    (ParamMapping items) execute
  = match substitute (dict pairs) pieces with
    | Some text => Py.Ok text
    | None => Py.Raise Py.KeyError
    end.
Proof. apply mogrify_pieces. Qed.

(** A template without a [%] is its own rendering, with a dictionary or a
    list. *)
Lemma py_mod_plain (batch : string) operand :
  contains "%" batch = false ->
  is_mapping operand = true ->
  py_mod py_text batch operand = Py.Ok batch.
Proof.
  intros Hplain Hop. unfold py_mod.
  rewrite <- (PyFormatProps.append_empty_r batch) at 1.
  rewrite (PyFormatProps.run_text _ _ _ _ _ Hplain).
  cbn. rewrite Hop. reflexivity.
Qed.

(** X10.  A template without a [%] is returned as it is for every
    sequence whose elements the driver can quote, and for every mapping
    whose values the driver can quote to bytes that decode as UTF-8, empty
    or not: no check is made that the parameters are used. *)
Theorem mogrify_plain_template_unchanged {Self : Type} (self : Self)
    (execute : bool) (batch : string)
    (vals : list V) (quoted : list string)
    (items : list (string * V)) (pairs : list (string * string)) :
  contains "%" batch = false ->
  quote_vals getquoted vals = Py.Ok quoted ->
  quote_items getquoted decode_utf8 items = Py.Ok pairs ->
  mogrify getquoted decode_utf8 py_text self batch (ParamSequence vals)
    execute = Py.Ok batch /\
  mogrify getquoted decode_utf8 py_text self batch (ParamMapping items)
    execute = Py.Ok batch.
Proof.
  intros Hplain Hquoted Hpairs. unfold mogrify.
  rewrite Hquoted, Hpairs. cbn [mbind result_bind Py.bind]. split.
  - destruct quoted; [reflexivity|]. apply py_mod_plain; [assumption|reflexivity].
  - destruct (dict pairs); [reflexivity|].
    apply py_mod_plain; [assumption|reflexivity].
Qed.

Lemma py_mod_escape (pre rest : string) operand :
  contains "%" pre = false ->
  contains "%" rest = false ->
  is_mapping operand = true ->
  py_mod py_text (pre +:+ "%%" +:+ rest) operand = Py.Ok (pre +:+ "%" +:+ rest).
Proof.
  intros Hpre Hrest Hop. unfold py_mod.
  rewrite (PyFormatProps.run_text _ _ _ _ _ Hpre).
  rewrite !PyFormatProps.append_String, !PyFormatProps.append_empty_l.
  rewrite run_percent_percent.
  rewrite <- (PyFormatProps.append_empty_r rest) at 1.
  rewrite (PyFormatProps.run_text _ _ _ _ _ Hrest).
  cbn. rewrite Hop, !PyFormatProps.append_assoc. reflexivity.
Qed.

(** X11.  The escape [%%] becomes [%] only when there are parameters: with
    non-empty parameters of either shape the rendering has a single [%],
    with [None] the template comes back with the escape still doubled. *)
Theorem mogrify_unescapes_only_with_parameters {Self : Type} (self : Self)
    (execute : bool) (pre rest : string)
    (vals : list V) (quoted : list string)
    (items : list (string * V)) (pairs : list (string * string)) :
  contains "%" pre = false ->
  contains "%" rest = false ->
  (0 < length vals)%nat ->
  quote_vals getquoted vals = Py.Ok quoted ->
  (0 < length items)%nat ->
  quote_items getquoted decode_utf8 items = Py.Ok pairs ->
  mogrify getquoted decode_utf8 py_text self (pre +:+ "%%" +:+ rest)
    (ParamSequence vals) execute = Py.Ok (pre +:+ "%" +:+ rest) /\
  mogrify getquoted decode_utf8 py_text self (pre +:+ "%%" +:+ rest)
    (ParamMapping items) execute = Py.Ok (pre +:+ "%" +:+ rest) /\
  mogrify getquoted decode_utf8 py_text self (pre +:+ "%%" +:+ rest)
    ParamNone execute = Py.Ok (pre +:+ "%%" +:+ rest).
Proof.
  intros Hpre Hrest Hvals Hquoted Hitems Hpairs. unfold mogrify.
  rewrite Hquoted, Hpairs. cbn [mbind result_bind Py.bind].
  pose proof (MogrifyProps.mapM_result_length _ _ _ Hquoted) as Hlen.
  pose proof (MogrifyProps.mapM_result_length _ _ _ Hpairs) as Hlen'.
  pose proof (MogrifyProps.dict_nonempty pairs) as Hdict.
  repeat split.
  - destruct quoted; [cbn in Hlen; lia|].
    apply py_mod_escape; [assumption .. | reflexivity].
  - destruct (dict pairs); [cbn in Hdict; lia|].
    apply py_mod_escape; [assumption .. | reflexivity].
Qed.

(** The first element that cannot be converted decides the outcome. *)
Lemma mapM_first_error {A B} (f : A -> Py.result B) (good : list A)
    (converted : list B) (bad : A) (rest : list A) (e : Py.exn) :
  mapM f good = Py.Ok converted ->
  f bad = Py.Raise e ->
  mapM f (good ++ bad :: rest) = Py.Raise e.
Proof.
  revert converted. induction good as [|x good IH]; intros converted Hgood Hbad.
  - cbn. rewrite Hbad. reflexivity.
  - cbn in Hgood |- *. destruct (f x) as [y|e']; cbn in Hgood |- *;
      [|discriminate].
    destruct (mapM f good) as [k|e'] eqn:Hk; cbn in Hgood; [|discriminate].
    rewrite (IH k eq_refl Hbad). reflexivity.
Qed.

(** X12.  When the driver cannot quote one of the parameters, and the
    parameters before it are quoted (and, in a mapping, decoded as UTF-8)
    without an error, [mogrify] raises the driver's exception for that
    parameter, whatever the template is and whatever follows in the
    parameters. *)
Theorem mogrify_raises_first_driver_error {Self : Type} (self : Self)
    (execute : bool) (batch key : string) (bad : V) (e : Py.exn)
    (vals rest : list V) (quoted : list string)
    (items rest_items : list (string * V)) (pairs : list (string * string)) :
  getquoted bad = Py.Raise e ->
  quote_vals getquoted vals = Py.Ok quoted ->
  quote_items getquoted decode_utf8 items = Py.Ok pairs ->
  mogrify getquoted decode_utf8 py_text self batch
    (ParamSequence (vals ++ bad :: rest)) execute = Py.Raise e /\
  mogrify getquoted decode_utf8 py_text self batch
    (ParamMapping (items ++ (key, bad) :: rest_items)) execute = Py.Raise e.
Proof.
  intros Hbad Hquoted Hpairs. unfold mogrify, quote_vals, quote_items in *.
  rewrite (mapM_first_error _ _ _ _ _ _ Hquoted Hbad).
  erewrite (mapM_first_error _ items pairs (key, bad) rest_items e Hpairs).
  - split; reflexivity.
  - cbn. rewrite Hbad. reflexivity.
Qed.

(** X13.  A positional sequence is never substituted element by element:
    with a single positional [%s] the rendering holds the text of the whole
    list of quoted values, and with two the call fails with a [TypeError],
    however many elements there are. *)
Theorem mogrify_sequence_is_one_value {Self : Type} (self : Self)
    (execute : bool) (pre mid rest : string)
    (vals : list V) (quoted : list string) :
  contains "%" pre = false ->
  contains "%" mid = false ->
  contains "%" rest = false ->
  (0 < length vals)%nat ->
  quote_vals getquoted vals = Py.Ok quoted ->
  mogrify getquoted decode_utf8 py_text self (pre +:+ "%s" +:+ rest)
    (ParamSequence vals) execute
  = Py.Ok (pre +:+ py_text ConvS (ObjList quoted) +:+ rest) /\
  mogrify getquoted decode_utf8 py_text self
    (pre +:+ "%s" +:+ mid +:+ "%s" +:+ rest) (ParamSequence vals) execute
  = Py.Raise Py.TypeError.
Proof.
  intros Hpre Hmid Hrest Hvals Hquoted. unfold mogrify.
  rewrite Hquoted. cbn [mbind result_bind Py.bind].
  pose proof (MogrifyProps.mapM_result_length _ _ _ Hquoted) as Hlen.
  destruct quoted as [|q quoted]; [cbn in Hlen; lia|]. split.
  - apply (PyFormatProps.py_mod_one_positional py_text pre rest
             (ObjList (q :: quoted))); [assumption .. | reflexivity].
  - apply PyFormatProps.py_mod_two_positional; assumption.
Qed.

(** *** The order of a mapping's items *)

Lemma quote_items_keys (items : list (string * V))
    (pairs : list (string * string)) :
  quote_items getquoted decode_utf8 items = Py.Ok pairs ->
  pairs.*1 = items.*1.
Proof.
  unfold quote_items. revert pairs.
  induction items as [|[key val] items IH]; intros pairs Hq; cbn in Hq.
  - injection Hq as <-. reflexivity.
  - destruct (getquoted val) as [q|e]; cbn in Hq; [|discriminate].
    destruct (decode_utf8 q) as [t|e]; cbn in Hq; [|discriminate].
    destruct (mapM _ items) as [k|e]; cbn in Hq; [|discriminate].
    injection Hq as <-. cbn. rewrite (IH k eq_refl). reflexivity.
Qed.

Lemma mapM_permutation {A B} (f : A -> Py.result B) (l1 l2 : list A)
    (r1 : list B) :
  l1 ≡ₚ l2 ->
  mapM f l1 = Py.Ok r1 ->
  exists r2, mapM f l2 = Py.Ok r2 /\ r1 ≡ₚ r2.
Proof.
  intros Hperm. revert r1.
  induction Hperm as [|x l1 l2 Hperm IH|x y l|l1 l2 l3 H12 IH12 H23 IH23];
    intros r1 Hr1.
  - exists r1. split; [assumption | reflexivity].
  - cbn in Hr1 |- *. destruct (f x) as [b|e]; cbn in Hr1 |- *; [|discriminate].
    destruct (mapM f l1) as [k|e]; cbn in Hr1; [|discriminate].
    injection Hr1 as <-. destruct (IH k eq_refl) as (k2 & -> & Hk).
    exists (b :: k2). split; [reflexivity|]. constructor. assumption.
  - cbn in Hr1 |- *.
    destruct (f y) as [b|e]; cbn in Hr1 |- *; [|discriminate].
    destruct (f x) as [a|e]; cbn in Hr1 |- *; [|discriminate].
    destruct (mapM f l) as [k|e]; cbn in Hr1 |- *; [|discriminate].
    injection Hr1 as <-. exists (a :: b :: k). split; [reflexivity|].
    constructor.
  - destruct (IH12 r1 Hr1) as (r2 & Hr2 & Hp12).
    destruct (IH23 r2 Hr2) as (r3 & Hr3 & Hp23).
    exists r3. split; [assumption|]. etransitivity; eassumption.
Qed.

Lemma dict_lookup_None (key : string) (d : list (string * string)) :
  key ∉ d.*1 -> dict_lookup key d = None.
Proof.
  induction d as [|[k v] d IH]; intros Hnot; [reflexivity|].
  cbn in Hnot |- *. apply not_elem_of_cons in Hnot as [Hne Hnot].
  destruct (String.eqb_spec k key) as [->|_]; [contradiction|].
  apply IH, Hnot.
Qed.

Lemma dict_lookup_elem (key val : string) (d : list (string * string)) :
  NoDup d.*1 -> (key, val) ∈ d -> dict_lookup key d = Some val.
Proof.
  induction d as [|[k v] d IH]; intros Hnodup Hin.
  - apply elem_of_nil in Hin. contradiction.
  - cbn in Hnodup |- *. apply NoDup_cons in Hnodup as [Hfresh Hnodup].
    apply elem_of_cons in Hin as [Heq|Hin].
    + injection Heq as -> ->. rewrite String.eqb_refl. reflexivity.
    + destruct (String.eqb_spec k key) as [->|_]; [|apply IH; assumption].
      exfalso. apply Hfresh.
      apply (list_elem_of_fmap_2 fst) in Hin. exact Hin.
Qed.

Lemma dict_lookup_Some_elem (key val : string) (d : list (string * string)) :
  dict_lookup key d = Some val -> (key, val) ∈ d.
Proof.
  induction d as [|[k v] d IH]; intros Hl; [discriminate|].
  cbn in Hl. destruct (String.eqb_spec k key) as [->|_].
  - injection Hl as ->. left.
  - right. apply IH, Hl.
Qed.

(** With distinct keys, what a key finds does not depend on the order of
    the items. *)
Lemma dict_lookup_permutation (key : string) (d1 d2 : list (string * string)) :
  NoDup d1.*1 -> d1 ≡ₚ d2 ->
  dict_lookup key d1 = dict_lookup key d2.
Proof.
  intros Hnodup Hperm.
  assert (Hnodup2 : NoDup d2.*1).
  { rewrite <- Hperm. assumption. }
  destruct (dict_lookup key d1) as [v|] eqn:H1.
  - apply dict_lookup_Some_elem in H1. rewrite Hperm in H1.
    symmetry. apply dict_lookup_elem; assumption.
  - destruct (dict_lookup key d2) as [v|] eqn:H2; [|reflexivity].
    apply dict_lookup_Some_elem in H2. rewrite <- Hperm in H2.
    rewrite (dict_lookup_elem _ _ _ Hnodup H2) in H1. discriminate.
Qed.

(** Items with distinct keys make the dictionary that lists them. *)
Lemma dict_set_new (key val : string) (d : list (string * string)) :
  key ∉ d.*1 -> dict_set key val d = d ++ [(key, val)].
Proof.
  induction d as [|[k v] d IH]; intros Hnot; [reflexivity|].
  cbn in Hnot |- *. apply not_elem_of_cons in Hnot as [Hne Hnot].
  destruct (String.eqb_spec k key) as [->|_]; [contradiction|].
  rewrite (IH Hnot). reflexivity.
Qed.

Lemma dict_distinct_keys (pairs : list (string * string)) :
  NoDup pairs.*1 -> dict pairs = pairs.
Proof.
  unfold dict.
  assert (Hgen : forall ps d,
             NoDup (d.*1 ++ ps.*1) ->
             fold_left (fun d '(key, val) => dict_set key val d) ps d
             = d ++ ps).
  { induction ps as [|[k v] ps IH]; intros d Hnodup.
    - cbn. rewrite app_nil_r. reflexivity.
    - cbn [fold_left]. cbn in Hnodup.
      apply NoDup_app in Hnodup as (Hd & Hdisj & Hps).
      apply NoDup_cons in Hps as [Hk Hps].
      rewrite dict_set_new.
      + rewrite IH.
        * rewrite <- app_assoc. reflexivity.
        * rewrite fmap_app. cbn. rewrite <- app_assoc. cbn.
          apply NoDup_app. split; [assumption|]. split.
          -- intros x Hx. apply Hdisj, Hx.
          -- apply NoDup_cons. split; assumption.
      + intros Hin. apply (Hdisj k Hin). left. }
  intros Hnodup. apply (Hgen pairs []). exact Hnodup.
Qed.

Lemma substitute_lookup (d1 d2 : list (string * string))
    (pieces : list piece) :
  (forall key, dict_lookup key d1 = dict_lookup key d2) ->
  substitute d1 pieces = substitute d2 pieces.
Proof.
  intros Hsame. induction pieces as [|[text| |key] pieces IH]; cbn.
  - reflexivity.
  - rewrite IH. reflexivity.
  - rewrite IH. reflexivity.
  - rewrite Hsame, IH. reflexivity.
Qed.

(** X14.  For a template made of text, [%%] and placeholders [%(key)s],
    the order in which a mapping lists its items does not matter: mappings
    with the same items in a different order, their keys distinct, give the
    same result. *)
Theorem mogrify_ignores_item_order {Self : Type} (self : Self)
    (execute : bool) (pieces : list piece)
    (items1 items2 : list (string * V)) (pairs1 : list (string * string)) :
  well_formed pieces = true ->
  NoDup items1.*1 ->
  items1 ≡ₚ items2 ->
  (0 < length items1)%nat ->
  quote_items getquoted decode_utf8 items1 = Py.Ok pairs1 ->
  mogrify getquoted decode_utf8 py_text self (source pieces)
    (ParamMapping items1) execute
  = mogrify getquoted decode_utf8 py_text self (source pieces)
      (ParamMapping items2) execute.
Proof.
  intros Hwf Hnodup Hperm Hlen Hq1.
  destruct (mapM_permutation _ _ _ _ Hperm Hq1) as (pairs2 & Hq2 & Hpairs).
  fold (quote_items getquoted decode_utf8 items2) in Hq2.
  rewrite (mogrify_pieces self execute pieces items1 pairs1 Hwf Hlen Hq1).
  rewrite (mogrify_pieces self execute pieces items2 pairs2 Hwf); [| |exact Hq2].
  - assert (Hkeys1 : NoDup pairs1.*1).
    { rewrite (quote_items_keys _ _ Hq1). assumption. }
    assert (Hkeys2 : NoDup pairs2.*1).
    { rewrite <- Hpairs. assumption. }
    rewrite (dict_distinct_keys _ Hkeys1), (dict_distinct_keys _ Hkeys2).
    rewrite (substitute_lookup pairs1 pairs2 pieces); [reflexivity|].
    intros key. apply dict_lookup_permutation; assumption.
  - rewrite <- Hperm. assumption.
Qed.


End Templates.



Lemma mogrify_substitutes_named_witness :
  Sample.mogrify tt "SELECT %(a)s WHERE x LIKE 'q%%' AND b IS %(b)s"
    (ParamMapping [("a", Sample.VBool true); ("b", Sample.VNone)]) false
  = Py.Ok "SELECT true WHERE x LIKE 'q%' AND b IS NULL".
Proof.
  apply (mogrify_substitutes_named
           Sample.getquoted Sample.decode_utf8 Sample.py_text tt false
           [Text "SELECT "; Named "a"; Text " WHERE x LIKE 'q"; Percent;
            Text "' AND b IS "; Named "b"]
           [("a", Sample.VBool true); ("b", Sample.VNone)]
           [("a", "true"); ("b", "NULL")]).
  - reflexivity.
  - cbn. lia.
  - reflexivity.
Defined.

Lemma mogrify_plain_template_unchanged_witness :
  Sample.mogrify tt "SELECT 1" (ParamSequence [Sample.VBool true]) false
    = Py.Ok "SELECT 1" /\
  Sample.mogrify tt "SELECT 1" (ParamMapping [("a", Sample.VNone)]) false
    = Py.Ok "SELECT 1".
Proof.
  apply (mogrify_plain_template_unchanged
           Sample.getquoted Sample.decode_utf8 Sample.py_text tt false
           "SELECT 1" [Sample.VBool true] ["true"]
           [("a", Sample.VNone)] [("a", "NULL")]); reflexivity.
Defined.

Lemma mogrify_unescapes_only_with_parameters_witness :
  Sample.mogrify tt "x LIKE 'q%%'" (ParamSequence [Sample.VBool true]) false
    = Py.Ok "x LIKE 'q%'" /\
  Sample.mogrify tt "x LIKE 'q%%'" (ParamMapping [("a", Sample.VNone)]) false
    = Py.Ok "x LIKE 'q%'" /\
  Sample.mogrify tt "x LIKE 'q%%'" ParamNone false
    = Py.Ok "x LIKE 'q%%'".
Proof.
  apply (mogrify_unescapes_only_with_parameters
           Sample.getquoted Sample.decode_utf8 Sample.py_text tt false
           "x LIKE 'q" "'" [Sample.VBool true] ["true"]
           [("a", Sample.VNone)] [("a", "NULL")]);
    first [reflexivity | cbn; lia].
Defined.

Lemma mogrify_raises_first_driver_error_witness :
  Unadaptable.mogrify tt "SELECT 1"
    (ParamSequence
       ([Unadaptable.Adaptable (Sample.VBool true)]
          ++ Unadaptable.PlainObject :: [Unadaptable.Adaptable Sample.VNone]))
    false
    = Py.Raise Py.ProgrammingError /\
  Unadaptable.mogrify tt "SELECT 1"
    (ParamMapping
       ([("a", Unadaptable.Adaptable (Sample.VBool true))]
          ++ ("b", Unadaptable.PlainObject) :: []))
    false
    = Py.Raise Py.ProgrammingError.
Proof.
  apply (mogrify_raises_first_driver_error
           Unadaptable.getquoted Sample.decode_utf8 Sample.py_text tt false
           "SELECT 1" "b" Unadaptable.PlainObject Py.ProgrammingError
           [Unadaptable.Adaptable (Sample.VBool true)]
           [Unadaptable.Adaptable Sample.VNone] ["true"]
           [("a", Unadaptable.Adaptable (Sample.VBool true))] []
           [("a", "true")]); reflexivity.
Defined.

Lemma mogrify_sequence_is_one_value_witness :
  Sample.mogrify tt "SELECT %s" (ParamSequence [Sample.VBool true; Sample.VNone])
    false
    = Py.Ok "SELECT [b'true', b'NULL']" /\
  Sample.mogrify tt "SELECT %s, %s"
    (ParamSequence [Sample.VBool true; Sample.VNone]) false
    = Py.Raise Py.TypeError.
Proof.
  apply (mogrify_sequence_is_one_value
           Sample.getquoted Sample.decode_utf8 Sample.py_text tt false
           "SELECT " ", " "" [Sample.VBool true; Sample.VNone]
           ["true"; "NULL"]);
    first [reflexivity | cbn; lia].
Defined.

Lemma mogrify_ignores_item_order_witness :
  Sample.mogrify tt "SELECT %(a)s, %(b)s"
    (ParamMapping [("a", Sample.VBool true); ("b", Sample.VNone)]) false
  = Sample.mogrify tt "SELECT %(a)s, %(b)s"
      (ParamMapping [("b", Sample.VNone); ("a", Sample.VBool true)]) false.
Proof.
  apply (mogrify_ignores_item_order
           Sample.getquoted Sample.decode_utf8 Sample.py_text tt false
           [Text "SELECT "; Named "a"; Text ", "; Named "b"]
           [("a", Sample.VBool true); ("b", Sample.VNone)]
           [("b", Sample.VNone); ("a", Sample.VBool true)]
           [("a", "true"); ("b", "NULL")]).
  - reflexivity.
  - cbn. refine (bool_decide_unpack _ _). vm_compute. exact I.
  - apply perm_swap.
  - cbn. lia.
  - reflexivity.
Defined.

End TemplateProps.

(** ** The statement of the [postgres] fixture *)

Module PostgresFixtureProps.
Import PostgresFixture.

Section Fixture.

Variable uuid_of : nat -> string.
Variable name_of : nat -> string.

Lemma length_append (a b : string) :
  String.length (a +:+ b) = (String.length a + String.length b)%nat.
Proof.
  induction a as [|c a IH]; [reflexivity|].
  rewrite PyFormatProps.append_String. cbn. rewrite IH. reflexivity.
Qed.

Lemma substring_prefix (a b : string) :
  substring 0 (String.length a) (a +:+ b) = a.
Proof.
  induction a as [|c a IH].
  - cbn. destruct b; reflexivity.
  - rewrite PyFormatProps.append_String. cbn. rewrite IH. reflexivity.
Qed.

(** Cutting the last character undoes appending one. *)
Lemma drop_last_append (a : string) (c : ascii) :
  drop_last (a +:+ String c "") = a.
Proof.
  unfold drop_last. rewrite length_append. cbn [String.length].
  replace (String.length a + 1 - 1)%nat with (String.length a) by lia.
  apply substring_prefix.
Qed.

Lemma row_to_insert_tuple (i : nat) :
  row_to_insert i (uuid_of i) (name_of i)
  = row_tuple uuid_of name_of i +:+ ",".
Proof.
  unfold row_to_insert, row_tuple.
  rewrite !PyFormatProps.append_assoc. reflexivity.
Qed.

Lemma fold_left_append {A B} (f : B -> A) (l : list B) (acc : list A) :
  fold_left (fun statement i => statement ++ [f i]) l acc = acc ++ map f l.
Proof.
  revert acc. induction l as [|i l IH]; intros acc; cbn.
  - rewrite app_nil_r. reflexivity.
  - rewrite IH, <- app_assoc. reflexivity.
Qed.

(** The loop appends one row per index, in order. *)
Lemma insert_statement_rows (n : nat) :
  insert_statement uuid_of name_of n
  = "INSERT INTO test_table VALUES"
    :: map (fun i => row_to_insert i (uuid_of i) (name_of i)) (seq 0 n).
Proof.
  unfold insert_statement.
  rewrite (fold_left_append
             (fun i => row_to_insert i (uuid_of i) (name_of i))).
  reflexivity.
Qed.

(** Joining rows that each end in a comma: the rows joined by commas, and
    one comma more. *)
Lemma concat_comma_rows (t : nat -> string) (i : nat) (l : list nat) :
  String.concat "" (map (fun i => t i +:+ ",") (i :: l))
  = String.concat "," (map t (i :: l)) +:+ ",".
Proof.
  revert i. induction l as [|j l IH]; intros i; [reflexivity|].
  change (String.concat "" (map (fun i => t i +:+ ",") (i :: j :: l)))
    with ((t i +:+ ",") +:+ "" +:+
          String.concat "" (map (fun i => t i +:+ ",") (j :: l))).
  change (String.concat "," (map t (i :: j :: l)))
    with (t i +:+ "," +:+ String.concat "," (map t (j :: l))).
  rewrite (IH j), PyFormatProps.append_empty_l.
  rewrite !PyFormatProps.append_assoc. reflexivity.
Qed.

(** With at least one row, cutting the last character of the joined text
    removes the comma after the last row. *)
Lemma drop_last_joined_insert (n : nat) :
  drop_last (joined_insert uuid_of name_of (S n))
  = "INSERT INTO test_table VALUES"
    +:+ String.concat "," (map (row_tuple uuid_of name_of) (seq 0 (S n))).
Proof.
  unfold joined_insert. rewrite insert_statement_rows.
  rewrite (map_ext _ (fun i => row_tuple uuid_of name_of i +:+ ","))
    by (intros i; apply row_to_insert_tuple).
  cbn [seq].
  change (String.concat ""
            ("INSERT INTO test_table VALUES"
             :: map (fun i => row_tuple uuid_of name_of i +:+ ",")
                  (0%nat :: seq 1 n)))
    with ("INSERT INTO test_table VALUES" +:+ "" +:+
          String.concat ""
            (map (fun i => row_tuple uuid_of name_of i +:+ ",")
               (0%nat :: seq 1 n))).
  rewrite concat_comma_rows, PyFormatProps.append_empty_l.
  rewrite <- PyFormatProps.append_assoc.
  apply drop_last_append.
Qed.

(** X15.  Whatever the random draws, the statement the fixture executes is
    the [INSERT] header, the 300 rows [(i, 'uuid', 'name')] for [i] from 0
    to 299 in order, separated by commas, and a final semicolon: cutting the
    last character of the joined text removes exactly the comma after the
    last row. *)
Theorem complete_insert_is_comma_separated :
  complete_insert uuid_of name_of
  = "INSERT INTO test_table VALUES"
    +:+ String.concat "," (map (row_tuple uuid_of name_of) (seq 0 300))
    +:+ ";".
Proof.
  unfold complete_insert.
  change 300%nat with (S 299).
  rewrite drop_last_joined_insert.
  apply PyFormatProps.append_assoc.
Qed.

(** Without a row the cut would take the last letter of the header. *)
Example drop_last_without_rows :
  drop_last (joined_insert uuid_of name_of 0) = "INSERT INTO test_table VALUE".
Proof. reflexivity. Qed.

End Fixture.

Example complete_insert_three_rows :
  drop_last (joined_insert (fun _ => "u") (fun _ => "jill") 3) +:+ ";"
  = "INSERT INTO test_table VALUES (0, 'u', 'jill'), (1, 'u', 'jill'), (2, 'u', 'jill');".
Proof. reflexivity. Qed.

End PostgresFixtureProps.
